(** * The Cluster controller of cluster-api, embedded in Rocq

    Source: [controllers/cluster_controller.go].

    One reconcile pass is modelled as a computation in a small state monad.
    The state holds the Cluster object the pass works on (a pointer in the Go
    code, mutated in place) and the trace of the calls the pass makes on the
    API client and on the finalizer list.  The answers of the object store
    are read from a [World]: within one pass the controller lists, deletes
    and only then resolves the external references, so no answer it reads
    depends on a write made earlier in the same pass.

    Go functions return [(value, err)]; here they return a pair whose second
    component is an [option error] ([None] for [nil]). *)

From Stdlib Require Import List String ZArith Bool Lia Permutation.
Import ListNotations.
Open Scope string_scope.
Open Scope Z_scope.
Open Scope list_scope.

Set Implicit Arguments.
Set Warnings "-register-all".

(* ------------------------------------------------------------------ *)
(** ** Errors *)

(** [metav1.StatusReason], as far as the controller inspects it. *)
Inductive StatusReason := StatusReasonNotFound | StatusReasonConflict | StatusReasonUnknown.

(** A formatted message: the format string of the source with its
    arguments, unexpanded. *)
Record Message := Msgf { format : string; args : list string }.

(** Go errors: API status errors, [errors.Wrapf], [kerrors.NewAggregate]. *)
Inductive error :=
| StatusError (reason : StatusReason) (message : string)
| Wrapf (cause : error) (msg : Message)
| Aggregate (errs : list error).

(** [errors.Cause]: the innermost wrapped error. *)
Fixpoint Cause (e : error) : error :=
  match e with
  | Wrapf e' _ => Cause e'
  | _ => e
  end.

(** [apierrors.IsNotFound] on a possibly nil error. *)
Definition IsNotFound (e : option error) : bool :=
  match e with
  | Some (StatusError StatusReasonNotFound _) => true
  | _ => false
  end.

(** [kerrors.NewAggregate]: nil entries are dropped, and an empty list gives
    nil. *)
Fixpoint dropNil (l : list (option error)) : list error :=
  match l with
  | [] => []
  | None :: l' => dropNil l'
  | Some e :: l' => e :: dropNil l'
  end.

Definition NewAggregate (errlist : list (option error)) : option error :=
  match dropNil errlist with
  | [] => None
  | errs => Some (Aggregate errs)
  end.

(* ------------------------------------------------------------------ *)
(** ** API objects *)

(** Label keys and finalizers are strings in Go; the two constants of
    [clusterv1] the controller names are kept apart from all other strings. *)
Inductive LabelKey := ClusterLabelName | OtherLabel (k : string).
Inductive Finalizer := ClusterFinalizer | OtherFinalizer (f : string).

Definition Finalizer_eqb (a b : Finalizer) : bool :=
  match a, b with
  | ClusterFinalizer, ClusterFinalizer => true
  | OtherFinalizer x, OtherFinalizer y => String.eqb x y
  | _, _ => false
  end.

Definition LabelKey_eqb (a b : LabelKey) : bool :=
  match a, b with
  | ClusterLabelName, ClusterLabelName => true
  | OtherLabel x, OtherLabel y => String.eqb x y
  | _, _ => false
  end.

Record OwnerReference := {
  orAPIVersion : string;
  orKind : string;
  orName : string
}.

(** [metav1.ObjectMeta].  A time is the number of nanoseconds since Go's
    zero instant; [DeletionTimestamp] is a pointer. *)
Record ObjectMeta := {
  Name : string;
  Namespace : string;
  Labels : list (LabelKey * string);
  OwnerReferences : list OwnerReference;
  DeletionTimestamp : option Z;
  Finalizers : list Finalizer
}.

(** [IsZero] on a [*metav1.Time]: a nil pointer counts as zero. *)
Definition IsZero (t : option Z) : bool :=
  match t with
  | None => true
  | Some n => n =? 0
  end.

Record ObjectReference := {
  refAPIVersion : string;
  refKind : string;
  refName : string
}.

Record NamespacedName := { nnNamespace : string; nnName : string }.

Inductive ConditionType :=
| ReadyCondition
| ControlPlaneReadyCondition
| InfrastructureReadyCondition
| OtherCondition (t : string).

Inductive ConditionStatus := ConditionTrue | ConditionFalse | ConditionUnknown.

Inductive ConditionSeverity :=
| ConditionSeverityError
| ConditionSeverityWarning
| ConditionSeverityInfo
| ConditionSeverityNone.

Inductive ConditionReason := DeletedReason | DeletingReason | OtherReason (r : string).

Record Condition := {
  condType : ConditionType;
  condStatus : ConditionStatus;
  condSeverity : ConditionSeverity;
  condReason : ConditionReason;
  condMessage : string;
  condLastTransitionTime : Z
}.

Record ClusterSpec := {
  Paused : bool;
  ControlPlaneRef : option ObjectReference;
  InfrastructureRef : option ObjectReference
}.

Record ClusterStatus := {
  Phase : string;
  ControlPlaneInitialized : bool;
  Conditions : list Condition;
  ObservedGeneration : Z
}.

Record Cluster := {
  clusterMeta : ObjectMeta;
  clusterSpec : ClusterSpec;
  clusterStatus : ClusterStatus
}.

Record MachineSpec := { ClusterName : string }.
Record MachineStatus := { NodeRef : option ObjectReference }.

Record Machine := {
  machineMeta : ObjectMeta;
  machineSpec : MachineSpec;
  machineStatus : MachineStatus
}.

Record MachineSet := { machineSetMeta : ObjectMeta }.
Record MachineDeployment := { machineDeploymentMeta : ObjectMeta }.
Record MachinePool := { machinePoolMeta : ObjectMeta }.

(** [unstructured.Unstructured]: a provider object, known by its kind, its
    metadata and the conditions found under its status. *)
Record Unstructured := {
  uAPIVersion : string;
  uKind : string;
  uMeta : ObjectMeta;
  uConditions : list Condition
}.

(** [runtime.Object], with the concrete types the controller handles. *)
Inductive Object :=
| OMachineDeployment (md : MachineDeployment)
| OMachineSet (ms : MachineSet)
| OMachine (m : Machine)
| OMachinePool (mp : MachinePool)
| OUnstructured (u : Unstructured)
| OCluster (c : Cluster).

(** [meta.Accessor]: every one of these types carries an [ObjectMeta], so
    the accessor never fails on them. *)
Definition Accessor (o : Object) : ObjectMeta :=
  match o with
  | OMachineDeployment md => machineDeploymentMeta md
  | OMachineSet ms => machineSetMeta ms
  | OMachine m => machineMeta m
  | OMachinePool mp => machinePoolMeta mp
  | OUnstructured u => uMeta u
  | OCluster c => clusterMeta c
  end.

(** [ctrl.Result]; a duration is a number of nanoseconds. *)
Record Result := { Requeue : bool; RequeueAfter : Z }.

Definition Second : Z := 1000000000.

Definition emptyResult : Result := {| Requeue := false; RequeueAfter := 0 |}.

(** [deleteRequeueAfter]: how long to wait before looking again for
    children during deletion. *)
Definition deleteRequeueAfter : Z := 5 * Second.

(* ------------------------------------------------------------------ *)
(** ** Field updates on the Cluster *)

Definition setFinalizers (fs : list Finalizer) (c : Cluster) : Cluster :=
  let m := clusterMeta c in
  {| clusterMeta := {| Name := Name m; Namespace := Namespace m; Labels := Labels m;
                       OwnerReferences := OwnerReferences m;
                       DeletionTimestamp := DeletionTimestamp m;
                       Finalizers := fs |};
     clusterSpec := clusterSpec c;
     clusterStatus := clusterStatus c |}.

Definition setConditions (cs : list Condition) (c : Cluster) : Cluster :=
  let s := clusterStatus c in
  {| clusterMeta := clusterMeta c;
     clusterSpec := clusterSpec c;
     clusterStatus := {| Phase := Phase s;
                         ControlPlaneInitialized := ControlPlaneInitialized s;
                         Conditions := cs;
                         ObservedGeneration := ObservedGeneration s |} |}.

Definition setControlPlaneInitialized (b : bool) (c : Cluster) : Cluster :=
  let s := clusterStatus c in
  {| clusterMeta := clusterMeta c;
     clusterSpec := clusterSpec c;
     clusterStatus := {| Phase := Phase s;
                         ControlPlaneInitialized := b;
                         Conditions := Conditions s;
                         ObservedGeneration := ObservedGeneration s |} |}.

Definition setPhase (p : string) (c : Cluster) : Cluster :=
  let s := clusterStatus c in
  {| clusterMeta := clusterMeta c;
     clusterSpec := clusterSpec c;
     clusterStatus := {| Phase := p;
                         ControlPlaneInitialized := ControlPlaneInitialized s;
                         Conditions := Conditions s;
                         ObservedGeneration := ObservedGeneration s |} |}.

(** [controllerutil.ContainsFinalizer], [AddFinalizer], [RemoveFinalizer]. *)
Definition ContainsFinalizer (c : Cluster) (f : Finalizer) : bool :=
  existsb (Finalizer_eqb f) (Finalizers (clusterMeta c)).

Definition AddFinalizer (c : Cluster) (f : Finalizer) : Cluster :=
  if ContainsFinalizer c f then c
  else setFinalizers (Finalizers (clusterMeta c) ++ [f]) c.

Definition RemoveFinalizer (c : Cluster) (f : Finalizer) : Cluster :=
  setFinalizers (filter (fun e => negb (Finalizer_eqb e f)) (Finalizers (clusterMeta c))) c.

(** [util.ObjectKey]. *)
Definition ObjectKey (c : Cluster) : NamespacedName :=
  {| nnNamespace := Namespace (clusterMeta c); nnName := Name (clusterMeta c) |}.

(* ------------------------------------------------------------------ *)
(** ** Conditions *)

Definition ConditionType_eqb (a b : ConditionType) : bool :=
  match a, b with
  | ReadyCondition, ReadyCondition => true
  | ControlPlaneReadyCondition, ControlPlaneReadyCondition => true
  | InfrastructureReadyCondition, InfrastructureReadyCondition => true
  | OtherCondition x, OtherCondition y => String.eqb x y
  | _, _ => false
  end.

Definition ConditionStatus_eqb (a b : ConditionStatus) : bool :=
  match a, b with
  | ConditionTrue, ConditionTrue => true
  | ConditionFalse, ConditionFalse => true
  | ConditionUnknown, ConditionUnknown => true
  | _, _ => false
  end.

Definition withType (t : ConditionType) (c : Condition) : Condition :=
  {| condType := t; condStatus := condStatus c; condSeverity := condSeverity c;
     condReason := condReason c; condMessage := condMessage c;
     condLastTransitionTime := condLastTransitionTime c |}.

Definition withLastTransitionTime (t : Z) (c : Condition) : Condition :=
  {| condType := condType c; condStatus := condStatus c; condSeverity := condSeverity c;
     condReason := condReason c; condMessage := condMessage c;
     condLastTransitionTime := t |}.

(** [conditions.Get]: the condition of the given type, if any. *)
Definition GetCondition (cs : list Condition) (t : ConditionType) : option Condition :=
  find (fun c => ConditionType_eqb (condType c) t) cs.

(** Modelled from the spec: [conditions.Set] of package [util/conditions],
    which is not part of the sources at hand.  The condition replaces the one
    of the same type or is added; the last transition time "updates only when
    status changes". *)
Fixpoint SetCondition (now : Z) (cs : list Condition) (c : Condition) : list Condition :=
  match cs with
  | [] => [withLastTransitionTime now c]
  | old :: rest =>
      if ConditionType_eqb (condType old) (condType c) then
        (if ConditionStatus_eqb (condStatus old) (condStatus c)
         then withLastTransitionTime (condLastTransitionTime old) c
         else withLastTransitionTime now c) :: rest
      else old :: SetCondition now rest c
  end.

(** Modelled from the spec: [conditions.FalseCondition], the condition that
    [conditions.MarkFalse] sets: status False with the given reason, severity
    and message. *)
Definition FalseCondition (t : ConditionType) (reason : ConditionReason)
    (severity : ConditionSeverity) (message : string) : Condition :=
  {| condType := t; condStatus := ConditionFalse; condSeverity := severity;
     condReason := reason; condMessage := message; condLastTransitionTime := 0 |}.

(** Modelled from the spec: the condition [conditions.SetMirror] sets.  It
    "copies the source's readiness condition verbatim when present, else
    synthesizes the fallback (status, reason, severity, empty message)";
    the copy is stored under the target type. *)
Definition mirror (t : ConditionType) (source : list Condition) (fallback : Condition) : Condition :=
  match GetCondition source ReadyCondition with
  | Some c => withType t c
  | None => fallback
  end.

(** [conditions.WithFallbackValue(false, reason, severity, message)]. *)
Definition WithFallbackValue (t : ConditionType) (reason : ConditionReason)
    (severity : ConditionSeverity) (message : string) : Condition :=
  FalseCondition t reason severity message.

(** Modelled from the spec: [util.LowestNonZeroResult], not part of the
    sources at hand.  Of two results it keeps "the earliest (lowest
    non-zero) of the individual requeue-after hints". *)
Definition LowestNonZeroResult (i j : Result) : Result :=
  if RequeueAfter i =? 0 then j
  else if RequeueAfter j =? 0 then i
  else if RequeueAfter i <? RequeueAfter j then i
  else j.

(* ------------------------------------------------------------------ *)
(** ** The object store and the trace of calls *)

Inductive Kind := KMachineDeployment | KMachineSet | KMachinePool | KMachine.

(** [patch.Option]. *)
Inductive PatchOption :=
| WithStatusObservedGeneration
| WithOwnedConditions (conds : list ConditionType).

Inductive Event :=
| EvList (k : Kind) (namespace name : string)
| EvDelete (o : Object)
| EvExternalGet (ref : ObjectReference) (namespace : string)
| EvGetActiveMachines (namespace name : string)
| EvAddFinalizer (f : Finalizer)
| EvRemoveFinalizer (f : Finalizer)
| EvReconcilePhase
| EvPatch (opts : list PatchOption).

(** What the API server and the feature gate answer during one pass. *)
Record World := {
  (** [feature.Gates.Enabled(feature.MachinePool)] *)
  featureMachinePool : bool;
  (** the clock read when a condition changes *)
  now : Z;
  (** [Client.Get] of a Cluster *)
  getCluster : NamespacedName -> Cluster + error;
  (** the objects of the store, by kind, and whether listing a kind fails *)
  storeMachineDeployments : list MachineDeployment;
  storeMachineSets : list MachineSet;
  storeMachinePools : list MachinePool;
  storeMachines : list Machine;
  listErr : Kind -> option error;
  (** [Client.Delete] *)
  deleteErr : Object -> option error;
  (** [external.Get] *)
  externalGet : ObjectReference -> string -> Unstructured + error;
  (** [patch.NewHelper] and the helper's [Patch] *)
  newHelperErr : Cluster -> option error;
  patchErr : Cluster -> list PatchOption -> option error;
  (** [getActiveMachinesInCluster] *)
  getActiveMachinesInCluster : string -> string -> list Machine + error;
  (** [util.GetClusterByName] *)
  GetClusterByName : string -> string -> Cluster + error
}.

(** The state monad of one pass: the Cluster in hand, and the calls made. *)
Definition M (A : Type) : Type := Cluster -> A * Cluster * list Event.

Definition ret {A} (a : A) : M A := fun c => (a, c, []).

Definition bind {A B} (m : M A) (f : A -> M B) : M B :=
  fun c =>
    let '(a, c1, t1) := m c in
    let '(b, c2, t2) := f a c1 in
    (b, c2, t1 ++ t2).

Definition getCl : M Cluster := fun c => (c, c, []).
Definition modify (f : Cluster -> Cluster) : M unit := fun c => (tt, f c, []).
Definition emit (e : Event) : M unit := fun c => (tt, c, [e]).

Declare Scope monad_scope.
Delimit Scope monad_scope with monad.
Notation "x <- m ;; k" := (bind m (fun x => k))
  (at level 61, m at next level, right associativity) : monad_scope.
Notation "' pat <- m ;; k" := (bind m (fun x => match x with pat => k end))
  (at level 61, pat pattern, m at next level, right associativity) : monad_scope.
Notation "m ;;; k" := (bind m (fun _ => k))
  (at level 61, right associativity) : monad_scope.
Open Scope monad_scope.

(** The label lookup of a Go map. *)
Fixpoint lookupLabel (k : LabelKey) (ls : list (LabelKey * string)) : option string :=
  match ls with
  | [] => None
  | (k', v) :: rest => if LabelKey_eqb k' k then Some v else lookupLabel k rest
  end.

(** [client.InNamespace(cluster.Namespace)] with
    [client.MatchingLabels{ClusterLabelName: cluster.Name}]. *)
Definition matchesListOptions (namespace name : string) (m : ObjectMeta) : bool :=
  String.eqb (Namespace m) namespace &&
  match lookupLabel ClusterLabelName (Labels m) with
  | Some v => String.eqb v name
  | None => false
  end.

(** [Client.List] for one kind, under the list options of the cluster. *)
Definition clientList {T} (w : World) (k : Kind) (store : list T) (meta : T -> ObjectMeta)
    (namespace name : string) : M (list T * option error) :=
  emit (EvList k namespace name) ;;;
  match listErr w k with
  | Some e => ret ([], Some e)
  | None => ret (filter (fun o => matchesListOptions namespace name (meta o)) store, None)
  end.

Definition clientDelete (w : World) (o : Object) : M (option error) :=
  emit (EvDelete o) ;;; ret (deleteErr w o).

Definition externalGetM (w : World) (ref : ObjectReference) (namespace : string)
  : M (Unstructured + error) :=
  emit (EvExternalGet ref namespace) ;;; ret (externalGet w ref namespace).

(* ------------------------------------------------------------------ *)
(** ** The controller *)

(** [path.Join] of two elements: empty elements are ignored.  Only used to
    build messages. *)
Definition pathJoin (a b : string) : string :=
  if String.eqb a "" then b
  else if String.eqb b "" then a
  else append a (append "/" b).

(** The kind under which an object is reported in messages. *)
Definition gvkString (o : Object) : string :=
  match o with
  | OMachineDeployment _ => "MachineDeployment"
  | OMachineSet _ => "MachineSet"
  | OMachine _ => "Machine"
  | OMachinePool _ => "MachinePool"
  | OUnstructured u => pathJoin (uAPIVersion u) (uKind u)
  | OCluster _ => "Cluster"
  end.

Record clusterDescendants := {
  machineDeployments : list MachineDeployment;
  machineSets : list MachineSet;
  controlPlaneMachines : list Machine;
  workerMachines : list Machine;
  machinePools : list MachinePool
}.

(** [length] returns the number of descendants. *)
Definition length_ (c : clusterDescendants) : nat :=
  (List.length (machineDeployments c) +
   List.length (machineSets c) +
   List.length (controlPlaneMachines c) +
   List.length (workerMachines c))%nat.

Definition isSome {A} (o : option A) : bool :=
  match o with Some _ => true | None => false end.

(** Helpers of the packages [util], [util/annotations] and [util/conditions],
    and the phase steps of [cluster_controller_phases.go]: they are not part
    of the sources at hand, and the controller is verified for every choice
    of them. *)
Record Helpers := {
  IsControlPlaneMachine : Machine -> bool;
  IsOwnedByObject : ObjectMeta -> Cluster -> bool;
  IsPaused : Cluster -> Cluster -> bool;
  (** the summary condition [conditions.SetSummary] computes from the
      conditions of the given types; nil when there is nothing to summarize *)
  summary : Cluster -> list ConditionType -> option Condition;
  (** the phase [reconcilePhase] stores in [Status.Phase] *)
  phaseOf : Cluster -> string;
  reconcileInfrastructure : World -> M (Result * option error);
  reconcileControlPlane : World -> M (Result * option error);
  reconcileKubeconfig : World -> M (Result * option error)
}.

Section Controller.

Variable h : Helpers.

(** [conditions.Set], [conditions.MarkFalse], [conditions.SetMirror] and
    [conditions.SetSummary] on the Cluster in hand. *)
Definition Set_ (w : World) (cond : Condition) : M unit :=
  modify (fun c => setConditions (SetCondition (now w) (Conditions (clusterStatus c)) cond) c).

Definition MarkFalse (w : World) (t : ConditionType) (reason : ConditionReason)
    (severity : ConditionSeverity) (message : string) : M unit :=
  Set_ w (FalseCondition t reason severity message).

Definition SetMirror (w : World) (t : ConditionType) (source : list Condition)
    (fallback : Condition) : M unit :=
  Set_ w (mirror t source fallback).

Definition SetSummary (w : World) (types : list ConditionType) : M unit :=
  c <- getCl ;;
  match summary h c types with
  | Some cond => Set_ w (withType ReadyCondition cond)
  | None => ret tt
  end.

(** [reconcilePhase]: recomputes the [Status.Phase] field. *)
Definition reconcilePhase : M unit :=
  emit EvReconcilePhase ;;;
  modify (fun c => setPhase (phaseOf h c) c).

(** [splitMachineList] separates the machines running the control plane
    from other worker nodes. *)
Definition splitMachineList (items : list Machine) : list Machine * list Machine :=
  let '(nodes, controlplanes) :=
    fold_left
      (fun (acc : list Machine * list Machine) (machine : Machine) =>
         let '(nodes, controlplanes) := acc in
         if IsControlPlaneMachine h machine
         then (nodes, controlplanes ++ [machine])
         else (nodes ++ [machine], controlplanes))
      items ([], []) in
  (controlplanes, nodes).

Definition emptyDescendants : clusterDescendants :=
  {| machineDeployments := []; machineSets := []; controlPlaneMachines := [];
     workerMachines := []; machinePools := [] |}.

(** [listDescendants] returns a list of all MachineDeployments,
    MachineSets, MachinePools and Machines for the cluster. *)
Definition listDescendants (w : World) (cluster : Cluster)
  : M (clusterDescendants * option error) :=
  let ns := Namespace (clusterMeta cluster) in
  let name := Name (clusterMeta cluster) in
  '(mds, err) <- clientList w KMachineDeployment (storeMachineDeployments w)
                   machineDeploymentMeta ns name ;;
  match err with
  | Some e =>
      ret (emptyDescendants,
           Some (Wrapf e (Msgf "failed to list MachineDeployments for cluster %s/%s" [ns; name])))
  | None =>
  '(mss, err) <- clientList w KMachineSet (storeMachineSets w) machineSetMeta ns name ;;
  match err with
  | Some e =>
      ret ({| machineDeployments := mds; machineSets := []; controlPlaneMachines := [];
              workerMachines := []; machinePools := [] |},
           Some (Wrapf e (Msgf "failed to list MachineSets for cluster %s/%s" [ns; name])))
  | None =>
  '(mps, err) <- (if featureMachinePool w
                  then clientList w KMachinePool (storeMachinePools w) machinePoolMeta ns name
                  else ret ([], None)) ;;
  match err with
  | Some e =>
      ret ({| machineDeployments := mds; machineSets := mss; controlPlaneMachines := [];
              workerMachines := []; machinePools := [] |},
           Some (Wrapf e (Msgf "failed to list MachinePools for the cluster %s/%s" [ns; name])))
  | None =>
  '(machines, err) <- clientList w KMachine (storeMachines w) machineMeta ns name ;;
  match err with
  | Some e =>
      ret ({| machineDeployments := mds; machineSets := mss; controlPlaneMachines := [];
              workerMachines := []; machinePools := mps |},
           Some (Wrapf e (Msgf "failed to list Machines for cluster %s/%s" [ns; name])))
  | None =>
      (* Split machines into control plane and worker machines so we make
         sure we delete control plane machines last *)
      let '(controlPlaneMachines, workerMachines) := splitMachineList machines in
      (* Only count control plane machines as descendants if there is no
         control plane provider. *)
      ret ({| machineDeployments := mds;
              machineSets := mss;
              controlPlaneMachines :=
                match ControlPlaneRef (clusterSpec cluster) with
                | None => controlPlaneMachines
                | Some _ => []
                end;
              workerMachines := workerMachines;
              machinePools := mps |}, None)
  end end end end.

(** The closure [eachFunc] of [filterOwnedDescendants], with the slice it
    appends to passed along. *)
Definition eachFunc (cluster : Cluster) (ownedDescendants : list Object) (o : Object)
  : list Object :=
  if IsOwnedByObject h (Accessor o) cluster
  then ownedDescendants ++ [o]
  else ownedDescendants.

(** [filterOwnedDescendants] returns only those descendants that have the
    cluster as an owner reference, with control plane machines sorted
    last.  [meta.EachListItem] cannot fail on these lists, and [eachFunc]
    returns no error. *)
Definition filterOwnedDescendants (w : World) (c : clusterDescendants) (cluster : Cluster)
  : list Object * option error :=
  let lists :=
    [ map OMachineDeployment (machineDeployments c);
      map OMachineSet (machineSets c);
      map OMachine (workerMachines c);
      map OMachine (controlPlaneMachines c) ] in
  let lists :=
    if featureMachinePool w
    then [map OMachinePool (machinePools c)] ++ lists
    else lists in
  (fold_left (fun owned items => fold_left (eachFunc cluster) items owned) lists [], None).

(** The loop of [reconcileDelete] over the children. *)
Fixpoint deleteChildren (w : World) (cluster : Cluster) (children : list Object)
    (errs : list error) : M (list error) :=
  match children with
  | [] => ret errs
  | child :: rest =>
      let accessor := Accessor child in
      if negb (IsZero (DeletionTimestamp accessor)) then
        (* Don't handle deleted child *)
        deleteChildren w cluster rest errs
      else
        let gvk := gvkString child in
        err <- clientDelete w child ;;
        match err with
        | Some e =>
            let e' := Wrapf e (Msgf "error deleting cluster %s/%s: failed to delete %s %s"
                                 [Namespace (clusterMeta cluster); Name (clusterMeta cluster);
                                  gvk; Name accessor]) in
            deleteChildren w cluster rest (errs ++ [e'])
        | None => deleteChildren w cluster rest errs
        end
  end.

Definition requeueAfter (d : Z) : Result := {| Requeue := false; RequeueAfter := d |}.

(** The [ControlPlaneRef] block of [reconcileDelete]: [Some] when the
    block returns from the function, [None] when control falls through. *)
Definition deleteControlPlaneRef (w : World) (cluster : Cluster)
  : M (option (Result * option error)) :=
  let ns := Namespace (clusterMeta cluster) in
  let name := Name (clusterMeta cluster) in
  match ControlPlaneRef (clusterSpec cluster) with
  | None => ret None
  | Some ref =>
      r <- externalGetM w ref ns ;;
      match r with
      | inr err =>
          if IsNotFound (Some (Cause err)) then
            (* All good - the control plane resource has been deleted *)
            MarkFalse w ControlPlaneReadyCondition DeletedReason ConditionSeverityInfo "" ;;;
            ret None
          else
            ret (Some (emptyResult,
                       Some (Wrapf err (Msgf "failed to get %s %q for Cluster %s/%s"
                               [pathJoin (refAPIVersion ref) (refKind ref); refName ref;
                                ns; name]))))
      | inl obj =>
          (* Report a summary of current status of the control plane
             object defined for this cluster. *)
          SetMirror w ControlPlaneReadyCondition (uConditions obj)
            (WithFallbackValue ControlPlaneReadyCondition DeletingReason
               ConditionSeverityInfo "") ;;;
          (* Issue a deletion request for the control plane object. *)
          err <- clientDelete w (OUnstructured obj) ;;
          match err with
          | Some e =>
              ret (Some (emptyResult,
                         Some (Wrapf e (Msgf "failed to delete %v %q for Cluster %q in namespace %q"
                                 [gvkString (OUnstructured obj); Name (uMeta obj); name; ns]))))
          | None =>
              (* Return here so we don't remove the finalizer yet. *)
              ret (Some (emptyResult, None))
          end
      end
  end.

(** The [InfrastructureRef] block of [reconcileDelete]. *)
Definition deleteInfrastructureRef (w : World) (cluster : Cluster)
  : M (option (Result * option error)) :=
  let ns := Namespace (clusterMeta cluster) in
  let name := Name (clusterMeta cluster) in
  match InfrastructureRef (clusterSpec cluster) with
  | None => ret None
  | Some ref =>
      r <- externalGetM w ref ns ;;
      match r with
      | inr err =>
          if IsNotFound (Some (Cause err)) then
            (* All good - the infra resource has been deleted *)
            MarkFalse w InfrastructureReadyCondition DeletedReason ConditionSeverityInfo "" ;;;
            ret None
          else
            ret (Some (emptyResult,
                       Some (Wrapf err (Msgf "failed to get %s %q for Cluster %s/%s"
                               [pathJoin (refAPIVersion ref) (refKind ref); refName ref;
                                ns; name]))))
      | inl obj =>
          (* Report a summary of current status of the infrastructure
             object defined for this cluster. *)
          SetMirror w InfrastructureReadyCondition (uConditions obj)
            (WithFallbackValue InfrastructureReadyCondition DeletingReason
               ConditionSeverityInfo "") ;;;
          (* Issue a deletion request for the infrastructure object. *)
          err <- clientDelete w (OUnstructured obj) ;;
          match err with
          | Some e =>
              ret (Some (emptyResult,
                         Some (Wrapf e (Msgf "failed to delete %v %q for Cluster %q in namespace %q"
                                 [gvkString (OUnstructured obj); Name (uMeta obj); name; ns]))))
          | None =>
              (* Return here so we don't remove the finalizer yet. *)
              ret (Some (emptyResult, None))
          end
      end
  end.

(** The first part of [reconcileDelete], up to the check of the
    descendant count: [Some] when the function returns there, [None] when
    control falls through to the external references.  *)
Definition deleteDescendants (w : World) (cluster : Cluster)
  : M (option (Result * option error)) :=
  '(descendants, err) <- listDescendants w cluster ;;
  match err with
  | Some e => ret (Some (emptyResult, Some e))
  | None =>
  let '(children, err) := filterOwnedDescendants w descendants cluster in
  match err with
  | Some e => ret (Some (emptyResult, Some e))
  | None =>
  errs <- (if (0 <? List.length children)%nat
           then deleteChildren w cluster children []
           else ret []) ;;
  if (0 <? List.length errs)%nat
  then ret (Some (emptyResult, NewAggregate (map Some errs)))
  else
  let descendantCount := length_ descendants in
  if (0 <? descendantCount)%nat then
    (* Requeue so we can check the next time to see if there are still any
       descendants left. *)
    ret (Some (requeueAfter deleteRequeueAfter, None))
  else ret None
  end end.

(** [reconcileDelete] handles cluster deletion. *)
Definition reconcileDelete (w : World) : M (Result * option error) :=
  cluster <- getCl ;;
  r <- deleteDescendants w cluster ;;
  match r with
  | Some out => ret out
  | None =>
  r <- deleteControlPlaneRef w cluster ;;
  match r with
  | Some out => ret out
  | None =>
  r <- deleteInfrastructureRef w cluster ;;
  match r with
  | Some out => ret out
  | None =>
  emit (EvRemoveFinalizer ClusterFinalizer) ;;;
  modify (fun c => RemoveFinalizer c ClusterFinalizer) ;;;
  ret (emptyResult, None)
  end end end.

(** The loop of [reconcileControlPlaneInitialized] over the machines:
    [true] when it set the flag and returned from inside the loop. *)
Fixpoint scanMachines (machines : list Machine) : M bool :=
  match machines with
  | [] => ret false
  | m :: rest =>
      if IsControlPlaneMachine h m && isSome (NodeRef (machineStatus m)) then
        modify (setControlPlaneInitialized true) ;;; ret true
      else scanMachines rest
  end.

Definition reconcileControlPlaneInitialized (w : World) : M (Result * option error) :=
  cluster <- getCl ;;
  (* Skip checking if the control plane is initialized when using a
     Control Plane Provider *)
  if isSome (ControlPlaneRef (clusterSpec cluster)) then ret (emptyResult, None)
  else
  if ControlPlaneInitialized (clusterStatus cluster) then ret (emptyResult, None)
  else
  emit (EvGetActiveMachines (Namespace (clusterMeta cluster)) (Name (clusterMeta cluster))) ;;;
  match getActiveMachinesInCluster w (Namespace (clusterMeta cluster))
          (Name (clusterMeta cluster)) with
  | inr err => ret (emptyResult, Some err)
  | inl machines =>
      scanMachines machines ;;;
      ret (emptyResult, None)
  end.

(** The loop of [reconcile] over the phases. *)
Fixpoint runPhases (phases : list (M (Result * option error))) (res : Result)
    (errs : list error) : M (Result * list error) :=
  match phases with
  | [] => ret (res, errs)
  | phase :: rest =>
      (* Call the inner reconciliation methods. *)
      '(phaseResult, err) <- phase ;;
      let errs := match err with Some e => errs ++ [e] | None => errs end in
      if (0 <? List.length errs)%nat then runPhases rest res errs
      else runPhases rest (LowestNonZeroResult res phaseResult) errs
  end.

(** [reconcile] handles cluster reconciliation. *)
Definition reconcile (w : World) : M (Result * option error) :=
  let phases :=
    [ reconcileInfrastructure h w;
      reconcileControlPlane h w;
      reconcileKubeconfig h w;
      reconcileControlPlaneInitialized w ] in
  '(res, errs) <- runPhases phases emptyResult [] ;;
  ret (res, NewAggregate (map Some errs)).

Definition patchCluster (w : World) (options : list PatchOption) : M (option error) :=
  (* Always update the readyCondition by summarizing the state of other
     conditions. *)
  SetSummary w [ControlPlaneReadyCondition; InfrastructureReadyCondition] ;;;
  (* Patch the object, ignoring conflicts on the conditions owned by this
     controller. *)
  let options :=
    options ++ [WithOwnedConditions [ReadyCondition; ControlPlaneReadyCondition;
                                     InfrastructureReadyCondition]] in
  emit (EvPatch options) ;;;
  c <- getCl ;;
  ret (patchErr w c options).

(** The deferred function of [Reconcile]; [reterr] is the named result. *)
Definition deferred (w : World) (reterr : option error) : M (option error) :=
  (* Always reconcile the Status.Phase field. *)
  reconcilePhase ;;;
  (* Always attempt to Patch the Cluster object and status after each
     reconciliation.  Patch ObservedGeneration only if the reconciliation
     completed successfully *)
  let patchOpts : list PatchOption := [] in
  let patchOpts :=
    match reterr with
    | None => patchOpts ++ [WithStatusObservedGeneration]
    | Some _ => patchOpts
    end in
  err <- patchCluster w patchOpts ;;
  match err with
  | Some e => ret (NewAggregate [reterr; Some e])
  | None => ret reterr
  end.

(** [Reconcile] from the finalizer check on, before the deferred function
    runs. *)
Definition reconcileBody (w : World) : M (Result * option error) :=
  cluster <- getCl ;;
  (* Add finalizer first if not exist to avoid the race condition between
     init and delete *)
  if negb (ContainsFinalizer cluster ClusterFinalizer) then
    emit (EvAddFinalizer ClusterFinalizer) ;;;
    modify (fun c => AddFinalizer c ClusterFinalizer) ;;;
    ret (emptyResult, None)
  else
  (* Handle deletion reconciliation loop. *)
  if negb (IsZero (DeletionTimestamp (clusterMeta cluster))) then reconcileDelete w
  else
  (* Handle normal reconciliation loop. *)
  reconcile w.

(** [Reconcile] once the patch helper exists: the body, then the deferred
    function, which may replace the error. *)
Definition reconcileWithDefer (w : World) : M (Result * option error) :=
  '(res, reterr) <- reconcileBody w ;;
  reterr <- deferred w reterr ;;
  ret (res, reterr).

(** [Reconcile]: the result, the Cluster as the pass leaves it (when it
    was fetched) and the calls made after the fetch. *)
Definition Reconcile (w : World) (req : NamespacedName)
  : (Result * option error) * option Cluster * list Event :=
  (* Fetch the Cluster instance. *)
  match getCluster w req with
  | inr err =>
      if IsNotFound (Some err) then ((emptyResult, None), None, [])
      else ((emptyResult, Some err), None, [])
  | inl cluster =>
      (* Return early if the object or Cluster is paused. *)
      if IsPaused h cluster cluster then ((emptyResult, None), Some cluster, [])
      else
      (* Initialize the patch helper. *)
      match newHelperErr w cluster with
      | Some err => ((emptyResult, Some err), Some cluster, [])
      | None =>
          let '(out, c, tr) := reconcileWithDefer w cluster in
          (out, Some c, tr)
      end
  end.

(** [controlPlaneMachineToCluster] maps a Machine event to the requests to
    enqueue: the keys of the Clusters to reconcile. *)
Definition controlPlaneMachineToCluster (w : World) (o : Object) : list NamespacedName :=
  match o with
  | OMachine m =>
      if negb (IsControlPlaneMachine h m) then []
      else if negb (isSome (NodeRef (machineStatus m))) then []
      else
        match GetClusterByName w (Namespace (machineMeta m)) (ClusterName (machineSpec m)) with
        | inr err => []
        | inl cluster =>
            if ControlPlaneInitialized (clusterStatus cluster) then []
            else [ObjectKey cluster]
        end
  | _ => []
  end.

End Controller.

(* ------------------------------------------------------------------ *)
(** ** Names of the descendants, and the owner-reference matcher *)

(** [strings.Join]. *)
Fixpoint Join (elems : list string) (sep : string) : string :=
  match elems with
  | [] => ""
  | [e] => e
  | e :: rest => append e (append sep (Join rest sep))
  end.

(** [descendantNames]: the names of the descendants, by kind, for the log
    line of [reconcileDelete]. *)
Definition descendantNames (w : World) (c : clusterDescendants) : string :=
  let descendants : list string := [] in
  let controlPlaneMachineNames :=
    map (fun controlPlaneMachine => Name (machineMeta controlPlaneMachine))
        (controlPlaneMachines c) in
  let descendants :=
    if (0 <? List.length controlPlaneMachineNames)%nat
    then descendants ++
         [append "Control plane machines: " (Join controlPlaneMachineNames ",")]
    else descendants in
  let machineDeploymentNames :=
    map (fun machineDeployment => Name (machineDeploymentMeta machineDeployment))
        (machineDeployments c) in
  let descendants :=
    if (0 <? List.length machineDeploymentNames)%nat
    then descendants ++ [append "Machine deployments: " (Join machineDeploymentNames ",")]
    else descendants in
  let machineSetNames :=
    map (fun machineSet => Name (machineSetMeta machineSet)) (machineSets c) in
  let descendants :=
    if (0 <? List.length machineSetNames)%nat
    then descendants ++ [append "Machine sets: " (Join machineSetNames ",")]
    else descendants in
  let workerMachineNames :=
    map (fun workerMachine => Name (machineMeta workerMachine)) (workerMachines c) in
  let descendants :=
    if (0 <? List.length workerMachineNames)%nat
    then descendants ++ [append "Worker machines: " (Join workerMachineNames ",")]
    else descendants in
  let descendants :=
    if featureMachinePool w then
      let machinePoolNames :=
        map (fun machinePool => Name (machinePoolMeta machinePool)) (machinePools c) in
      if (0 <? List.length machinePoolNames)%nat
      then descendants ++ [append "Machine pools: " (Join machinePoolNames ",")]
      else descendants
    else descendants in
  Join descendants ";".

(** The matcher [ContainRefOfKind] of the test suite.  [Match] receives an
    [interface{}]: a slice of owner references, or anything else. *)
Record refKindMatcher := { kind : string }.

Inductive Actual :=
| ActualOwnerReferences (ownerRefs : list OwnerReference)
| ActualOther.

(** The error [fmt.Errorf] builds. *)
Inductive matcherError := Errorf (msg : string).

Definition ContainRefOfKind (kind : string) : refKindMatcher := {| kind := kind |}.

(** The loop of [Match] over the owner references. *)
Fixpoint matchOwnerRefs (matcher : refKindMatcher) (ownerRefs : list OwnerReference) : bool :=
  match ownerRefs with
  | [] => false
  | ref :: rest =>
      if String.eqb (orKind ref) (kind matcher) then true
      else matchOwnerRefs matcher rest
  end.

Definition Match (matcher : refKindMatcher) (actual : Actual) : bool * option matcherError :=
  match actual with
  | ActualOwnerReferences ownerRefs => (matchOwnerRefs matcher ownerRefs, None)
  | ActualOther =>
      (false, Some (Errorf "ContainRefOfKind matcher expects a slice of OwnerReference"))
  end.

(* ------------------------------------------------------------------ *)
(** ** Concrete objects, used to run the controller *)

Module Ex.

Definition controlPlaneLabel : LabelKey := OtherLabel "cluster.x-k8s.io/control-plane".

Definition okPhase : World -> M (Result * option error) :=
  fun _ => ret (emptyResult, None).

Definition helpers : Helpers :=
  {| IsControlPlaneMachine :=
       fun m => isSome (lookupLabel controlPlaneLabel (Labels (machineMeta m)));
     IsOwnedByObject :=
       fun meta c =>
         existsb (fun r => String.eqb (orKind r) "Cluster" &&
                           String.eqb (orName r) (Name (clusterMeta c)))
                 (OwnerReferences meta);
     IsPaused := fun c _ => Paused (clusterSpec c);
     summary := fun _ _ => None;
     phaseOf := fun c => if IsZero (DeletionTimestamp (clusterMeta c))
                         then "Provisioned" else "Deleting";
     reconcileInfrastructure := okPhase;
     reconcileControlPlane := okPhase;
     reconcileKubeconfig := okPhase |}.

Definition meta (name : string) (labels : list (LabelKey * string))
    (owners : list OwnerReference) (deleted : option Z) (fs : list Finalizer) : ObjectMeta :=
  {| Name := name; Namespace := "default"; Labels := labels; OwnerReferences := owners;
     DeletionTimestamp := deleted; Finalizers := fs |}.

Definition ownedByC : list OwnerReference :=
  [{| orAPIVersion := "cluster.x-k8s.io/v1alpha4"; orKind := "Cluster"; orName := "c" |}].

Definition ofC : list (LabelKey * string) := [(ClusterLabelName, "c")].

Definition status0 : ClusterStatus :=
  {| Phase := ""; ControlPlaneInitialized := false; Conditions := [];
     ObservedGeneration := 0 |}.

Definition cluster (deleted : option Z) (fs : list Finalizer)
    (cp infra : option ObjectReference) : Cluster :=
  {| clusterMeta := meta "c" [] [] deleted fs;
     clusterSpec := {| Paused := false; ControlPlaneRef := cp; InfrastructureRef := infra |};
     clusterStatus := status0 |}.

(** A Cluster under deletion that carries the finalizer and has no
    external reference. *)
Definition deleting : Cluster := cluster (Some 1) [ClusterFinalizer] None None.

(** A Cluster under deletion whose finalizer list holds only a finalizer
    of another controller. *)
Definition deletingNoFinalizer : Cluster :=
  cluster (Some 1) [OtherFinalizer "other"] None None.

Definition live : Cluster := cluster None [ClusterFinalizer] None None.

Definition infraRef : ObjectReference :=
  {| refAPIVersion := "infrastructure.cluster.x-k8s.io/v1alpha4";
     refKind := "InfraCluster"; refName := "x" |}.

Definition cpRef : ObjectReference :=
  {| refAPIVersion := "controlplane.cluster.x-k8s.io/v1alpha4";
     refKind := "ControlPlane"; refName := "cp" |}.

Definition notFound : error := StatusError StatusReasonNotFound "not found".
Definition conflict : error := StatusError StatusReasonConflict "conflict".

Definition pool (name : string) : MachinePool :=
  {| machinePoolMeta := meta name ofC ownedByC None [] |}.

Definition machine (name : string) (labels : list (LabelKey * string))
    (node : option ObjectReference) : Machine :=
  {| machineMeta := meta name (ofC ++ labels) ownedByC None [];
     machineSpec := {| ClusterName := "c" |};
     machineStatus := {| NodeRef := node |} |}.

Definition nodeRef : ObjectReference :=
  {| refAPIVersion := "v1"; refKind := "Node"; refName := "node-1" |}.

Definition cpMachine : Machine := machine "m-cp" [(controlPlaneLabel, "")] (Some nodeRef).
Definition workerMachine : Machine := machine "m-w" [] (Some nodeRef).

Definition providerObject (ref : ObjectReference) : Unstructured :=
  {| uAPIVersion := refAPIVersion ref; uKind := refKind ref;
     uMeta := meta (refName ref) ofC ownedByC None []; uConditions := [] |}.

(** A store in which every call succeeds; external references resolve to
    NotFound. *)
Definition world (gate : bool) (mds : list MachineDeployment) (mss : list MachineSet)
    (mps : list MachinePool) (ms : list Machine) (c : Cluster) : World :=
  {| featureMachinePool := gate;
     now := 100;
     getCluster := fun _ => inl c;
     storeMachineDeployments := mds;
     storeMachineSets := mss;
     storeMachinePools := mps;
     storeMachines := ms;
     listErr := fun _ => None;
     deleteErr := fun _ => None;
     externalGet := fun _ _ => inr notFound;
     newHelperErr := fun _ => None;
     patchErr := fun _ _ => None;
     getActiveMachinesInCluster := fun _ _ => inl ms;
     GetClusterByName := fun _ _ => inl c |}.

Definition emptyWorld (c : Cluster) : World := world false [] [] [] [] c.

(** The MachinePool feature is enabled, and the only descendant of the
    Cluster is one MachinePool. *)
Definition poolWorld : World := world true [] [] [pool "mp-1"] [] deleting.

Definition deployment (name : string) : MachineDeployment :=
  {| machineDeploymentMeta := meta name ofC ownedByC None [] |}.

Definition machineSet (name : string) : MachineSet :=
  {| machineSetMeta := meta name ofC ownedByC None [] |}.

(** One descendant of each kind, all owned by the Cluster, with the
    MachinePool feature enabled. *)
Definition fullWorld : World :=
  world true [deployment "md-1"] [machineSet "ms-1"] [pool "mp-1"]
        [cpMachine; workerMachine] deleting.

(** A Cluster under deletion with both external references. *)
Definition deletingWithRefs : Cluster :=
  cluster (Some 1) [ClusterFinalizer] (Some cpRef) (Some infraRef).

(** No descendant is left; the control-plane object is gone and the
    infrastructure object still exists. *)
Definition refWorld : World :=
  {| featureMachinePool := false;
     now := 100;
     getCluster := fun _ => inl deletingWithRefs;
     storeMachineDeployments := [];
     storeMachineSets := [];
     storeMachinePools := [];
     storeMachines := [];
     listErr := fun _ => None;
     deleteErr := fun _ => None;
     externalGet := fun ref _ =>
       if String.eqb (refKind ref) "InfraCluster"
       then inl (providerObject ref)
       else inr notFound;
     newHelperErr := fun _ => None;
     patchErr := fun _ _ => None;
     getActiveMachinesInCluster := fun _ _ => inl [];
     GetClusterByName := fun _ _ => inl deletingWithRefs |}.

(** The list calls of a pass with the MachinePool feature disabled. *)
Definition listTrace : list Event :=
  [EvList KMachineDeployment "default" "c"; EvList KMachineSet "default" "c";
   EvList KMachine "default" "c"].

(** Phase steps with fixed answers: requeue after 10 s, a failure that
    asks for 1 s, requeue after 3 s. *)
Definition after (seconds : Z) : World -> M (Result * option error) :=
  fun _ => ret ({| Requeue := false; RequeueAfter := seconds * Second |}, None).

Definition failing (seconds : Z) : World -> M (Result * option error) :=
  fun _ => ret ({| Requeue := false; RequeueAfter := seconds * Second |}, Some conflict).

Definition helpersWith (p1 p2 p3 : World -> M (Result * option error)) : Helpers :=
  {| IsControlPlaneMachine := IsControlPlaneMachine helpers;
     IsOwnedByObject := IsOwnedByObject helpers;
     IsPaused := IsPaused helpers;
     summary := summary helpers;
     phaseOf := phaseOf helpers;
     reconcileInfrastructure := p1;
     reconcileControlPlane := p2;
     reconcileKubeconfig := p3 |}.

(** Listing the MachineSets fails. *)
Definition listFailureWorld : World :=
  {| featureMachinePool := false;
     now := 100;
     getCluster := fun _ => inl deleting;
     storeMachineDeployments := [deployment "md-1"];
     storeMachineSets := [machineSet "ms-1"];
     storeMachinePools := [];
     storeMachines := [cpMachine; workerMachine];
     listErr := fun k => match k with KMachineSet => Some conflict | _ => None end;
     deleteErr := fun _ => None;
     externalGet := fun _ _ => inr notFound;
     newHelperErr := fun _ => None;
     patchErr := fun _ _ => None;
     getActiveMachinesInCluster := fun _ _ => inl [cpMachine; workerMachine];
     GetClusterByName := fun _ _ => inl deleting |}.

(** The delete calls on Machines fail. *)
Definition deleteFailureWorld : World :=
  {| featureMachinePool := false;
     now := 100;
     getCluster := fun _ => inl deleting;
     storeMachineDeployments := [deployment "md-1"];
     storeMachineSets := [];
     storeMachinePools := [];
     storeMachines := [cpMachine; workerMachine];
     listErr := fun _ => None;
     deleteErr := fun o => match o with OMachine _ => Some conflict | _ => None end;
     externalGet := fun _ _ => inr notFound;
     newHelperErr := fun _ => None;
     patchErr := fun _ _ => None;
     getActiveMachinesInCluster := fun _ _ => inl [cpMachine; workerMachine];
     GetClusterByName := fun _ _ => inl deleting |}.

(** Machines are left, and every call succeeds. *)
Definition machinesWorld : World :=
  world false [] [] [] [cpMachine; workerMachine] deleting.

Definition key : NamespacedName := {| nnNamespace := "default"; nnName := "c" |}.

End Ex.

(* ------------------------------------------------------------------ *)
(** ** Definitions used to state the properties *)

Section Statements.

Variable h : Helpers.

(** The test of the loop of [reconcileControlPlaneInitialized]. *)
Definition hasNode (m : Machine) : bool :=
  IsControlPlaneMachine h m && isSome (NodeRef (machineStatus m)).

(** Running steps one after the other, whatever they return, and
    collecting what each returned. *)
Fixpoint runAll (phases : list (M (Result * option error)))
  : M (list (Result * option error)) :=
  match phases with
  | [] => ret []
  | phase :: rest =>
      out <- phase ;;
      outs <- runAll rest ;;
      ret (out :: outs)
  end.

(** The results of the steps that come before the first failing one. *)
Fixpoint beforeFirstError (outs : list (Result * option error)) : list Result :=
  match outs with
  | (r, None) :: rest => r :: beforeFirstError rest
  | _ => []
  end.

(** [m] is the lowest non-zero among [hints], or zero when all are zero. *)
Definition lowestNonZero (m : Z) (hints : list Z) : Prop :=
  (m = 0 /\ forall x, In x hints -> x = 0) \/
  (m <> 0 /\ In m hints /\ forall x, In x hints -> x <> 0 -> m <= x).

(** Events by sort. *)
Definition isAddFinalizer (e : Event) : bool :=
  match e with EvAddFinalizer _ => true | _ => false end.

Definition isRemoveFinalizer (e : Event) : bool :=
  match e with EvRemoveFinalizer _ => true | _ => false end.

(** A delete call on a descendant (not on a provider object). *)
Definition isDescendantDelete (e : Event) : bool :=
  match e with
  | EvDelete (OUnstructured _) => false
  | EvDelete _ => true
  | _ => false
  end.

(** An external reference is absent: it is nil, or resolving it gives an
    error whose cause is NotFound. *)
Definition refAbsent (w : World) (namespace : string) (ref : option ObjectReference) : bool :=
  match ref with
  | None => true
  | Some r =>
      match externalGet w r namespace with
      | inr err => IsNotFound (Some (Cause err))
      | inl _ => false
      end
  end.

(** The objects the store holds for the cluster, by kind: what each
    [Client.List] of [listDescendants] selects. *)
Definition selected {T} (meta : T -> ObjectMeta) (cluster : Cluster) (store : list T) : list T :=
  filter (fun o => matchesListOptions (Namespace (clusterMeta cluster))
                     (Name (clusterMeta cluster)) (meta o)) store.

(** A child is sent a delete call when the cluster owns it and it is not
    being deleted already. *)
Definition toDelete (cluster : Cluster) (o : Object) : bool :=
  IsOwnedByObject h (Accessor o) cluster && IsZero (DeletionTimestamp (Accessor o)).

(** The lists [filterOwnedDescendants] goes through, in its order. *)
Definition inDeletionOrder (w : World) (d : clusterDescendants) : list Object :=
  (if featureMachinePool w then map OMachinePool (machinePools d) else []) ++
  map OMachineDeployment (machineDeployments d) ++
  map OMachineSet (machineSets d) ++
  map OMachine (workerMachines d) ++
  map OMachine (controlPlaneMachines d).

(** The events of a successful [listDescendants]. *)
Definition listEvents (w : World) (cluster : Cluster) : list Event :=
  let ns := Namespace (clusterMeta cluster) in
  let name := Name (clusterMeta cluster) in
  [EvList KMachineDeployment ns name; EvList KMachineSet ns name] ++
  (if featureMachinePool w then [EvList KMachinePool ns name] else []) ++
  [EvList KMachine ns name].

(** The Cluster after [conditions.Set] of a condition. *)
Definition withCondition (w : World) (cond : Condition) (c : Cluster) : Cluster :=
  setConditions (SetCondition (now w) (Conditions (clusterStatus c)) cond) c.

(** The error returned when resolving a reference fails. *)
Definition getError (cluster : Cluster) (ref : ObjectReference) (err : error) : error :=
  Wrapf err (Msgf "failed to get %s %q for Cluster %s/%s"
               [pathJoin (refAPIVersion ref) (refKind ref); refName ref;
                Namespace (clusterMeta cluster); Name (clusterMeta cluster)]).

(** The error returned by the delete call on a provider object, if any. *)
Definition deleteError (w : World) (cluster : Cluster) (obj : Unstructured) : option error :=
  match deleteErr w (OUnstructured obj) with
  | Some e =>
      Some (Wrapf e (Msgf "failed to delete %v %q for Cluster %q in namespace %q"
                       [gvkString (OUnstructured obj); Name (uMeta obj);
                        Name (clusterMeta cluster); Namespace (clusterMeta cluster)]))
  | None => None
  end.

(** What one reference block does, for the reference [ref] it is given
    and the condition type [t] it reports on. *)
Definition refBlockOutcome (w : World) (cluster c : Cluster) (t : ConditionType)
    (ref : option ObjectReference)
  : option (Result * option error) * Cluster * list Event :=
  let ns := Namespace (clusterMeta cluster) in
  match ref with
  | None => (None, c, [])
  | Some r =>
      match externalGet w r ns with
      | inr err =>
          if IsNotFound (Some (Cause err))
          then (None,
                withCondition w (FalseCondition t DeletedReason ConditionSeverityInfo "") c,
                [EvExternalGet r ns])
          else (Some (emptyResult, Some (getError cluster r err)), c, [EvExternalGet r ns])
      | inl obj =>
          (Some (emptyResult, deleteError w cluster obj),
           withCondition w
             (mirror t (uConditions obj)
                (FalseCondition t DeletingReason ConditionSeverityInfo "")) c,
           [EvExternalGet r ns; EvDelete (OUnstructured obj)])
      end
  end.

(** Two conditions agree on all but their type and transition time. *)
Definition sameState (a b : Condition) : Prop :=
  condStatus a = condStatus b /\ condSeverity a = condSeverity b /\
  condReason a = condReason b /\ condMessage a = condMessage b.

(** The condition is False with the given reason, severity Info and an
    empty message. *)
Definition isFalseWith (reason : ConditionReason) (cond : Condition) : Prop :=
  condStatus cond = ConditionFalse /\ condReason cond = reason /\
  condSeverity cond = ConditionSeverityInfo /\ condMessage cond = "".

Definition countEvents (p : Event -> bool) (tr : list Event) : nat :=
  List.length (filter p tr).

(** A control-plane Machine among the objects to delete. *)
Definition isControlPlaneObject (o : Object) : bool :=
  match o with
  | OMachine m => IsControlPlaneMachine h m
  | _ => false
  end.

(** The calls of the two reference blocks. *)
Definition isRefEvent (e : Event) : Prop :=
  match e with
  | EvExternalGet _ _ | EvDelete (OUnstructured _) => True
  | _ => False
  end.

Definition isTyped (o : Object) : Prop :=
  match o with
  | OUnstructured _ => False
  | _ => True
  end.

(** The options of the patch at the end of a pass that returned
    [reterr]. *)
Definition ownedConditions : PatchOption :=
  WithOwnedConditions [ReadyCondition; ControlPlaneReadyCondition;
                       InfrastructureReadyCondition].

Definition patchOptions (reterr : option error) : list PatchOption :=
  match reterr with
  | None => [WithStatusObservedGeneration; ownedConditions]
  | Some _ => [ownedConditions]
  end.

(** The Cluster after [reconcilePhase] and [conditions.SetSummary]. *)
Definition summarized (w : World) (c : Cluster) : Cluster :=
  let c1 := setPhase (phaseOf h c) c in
  match summary h c1 [ControlPlaneReadyCondition; InfrastructureReadyCondition] with
  | Some cond => withCondition w (withType ReadyCondition cond) c1
  | None => c1
  end.

(** The object belongs to the cluster as [listDescendants] selects: it is
    in the namespace of the cluster and its cluster-name label is the name
    of the cluster. *)
Definition belongsTo (cluster : Cluster) (m : ObjectMeta) : Prop :=
  Namespace m = Namespace (clusterMeta cluster) /\
  lookupLabel ClusterLabelName (Labels m) = Some (Name (clusterMeta cluster)).

(** The kinds [listDescendants] lists, in its order. *)
Definition consultedKinds (w : World) : list Kind :=
  [KMachineDeployment; KMachineSet] ++
  (if featureMachinePool w then [KMachinePool] else []) ++
  [KMachine].

(** The kinds listed up to and including the first one whose listing
    fails, with that failure. *)
Fixpoint listedUntilFailure (w : World) (ks : list Kind) : list Kind * option error :=
  match ks with
  | [] => ([], None)
  | k :: rest =>
      match listErr w k with
      | Some e => ([k], Some e)
      | None => let '(ks', failure) := listedUntilFailure w rest in (k :: ks', failure)
      end
  end.

(** The causes of the delete calls that fail on the given objects. *)
Definition failedCauses (w : World) (objs : list Object) : list error :=
  flat_map (fun o => match deleteErr w o with
                     | Some e => [Cause e]
                     | None => []
                     end) objs.

End Statements.

(* ------------------------------------------------------------------ *)
(** ** Properties *)

Section Properties.

Variable h : Helpers.

(** *** splitMachineList *)

Lemma splitMachineList_acc (l nodes cps : list Machine) :
  fold_left
    (fun (acc : list Machine * list Machine) (machine : Machine) =>
       let '(nodes, controlplanes) := acc in
       if IsControlPlaneMachine h machine
       then (nodes, controlplanes ++ [machine])
       else (nodes ++ [machine], controlplanes))
    l (nodes, cps)
  = (nodes ++ filter (fun m => negb (IsControlPlaneMachine h m)) l,
     cps ++ filter (IsControlPlaneMachine h) l).
Proof.
  revert nodes cps.
  induction l as [|m l IH]; intros nodes cps; simpl.
  - now rewrite !app_nil_r.
  - destruct (IsControlPlaneMachine h m); simpl; rewrite IH, <- app_assoc; reflexivity.
Qed.

Lemma splitMachineList_filter (l : list Machine) :
  splitMachineList h l =
  (filter (IsControlPlaneMachine h) l,
   filter (fun m => negb (IsControlPlaneMachine h m)) l).
Proof.
  unfold splitMachineList. rewrite splitMachineList_acc. reflexivity.
Qed.

Lemma filter_negb_Permutation {A} (f : A -> bool) (l : list A) :
  Permutation (filter f l ++ filter (fun x => negb (f x)) l) l.
Proof.
  induction l as [|a l IH]; simpl; [constructor|].
  destruct (f a); simpl.
  - now constructor.
  - apply Permutation_sym, Permutation_cons_app, Permutation_sym, IH.
Qed.

(** C10.  [splitMachineList] partitions its input: the first output is the
    input restricted to the control-plane Machines and the second the input
    restricted to the others, both in the order of the input; a Machine is
    in the first output exactly when it is in the input and is a
    control-plane Machine, in the second exactly when it is in the input
    and is not; the two outputs together are a permutation of the input
    (nothing dropped, nothing duplicated) and their lengths add up to the
    length of the input. *)
Theorem splitMachineList_partition (l : list Machine) :
  let '(controlplanes, nodes) := splitMachineList h l in
  controlplanes = filter (IsControlPlaneMachine h) l /\
  nodes = filter (fun m => negb (IsControlPlaneMachine h m)) l /\
  (forall m, In m controlplanes <-> In m l /\ IsControlPlaneMachine h m = true) /\
  (forall m, In m nodes <-> In m l /\ IsControlPlaneMachine h m = false) /\
  (forall m, ~ (In m controlplanes /\ In m nodes)) /\
  Permutation (controlplanes ++ nodes) l /\
  (List.length controlplanes + List.length nodes = List.length l)%nat.
Proof.
  rewrite splitMachineList_filter.
  split; [reflexivity|]. split; [reflexivity|].
  split; [intro m; apply filter_In|].
  split.
  { intro m. rewrite filter_In, negb_true_iff. reflexivity. }
  split.
  { intros m [[_ E1]%filter_In [_ E2]%filter_In]. rewrite E1 in E2. discriminate. }
  split; [apply filter_negb_Permutation | apply filter_length].
Qed.

(** *** The watch mapper *)

(** C8.  On a Machine event the mapper returns no request when the Machine
    is not a control-plane Machine, none when it has no node reference,
    none when the lookup of the owning Cluster fails (the mapper has no
    error result: the failure is dropped), none when that Cluster already
    has control-plane-initialized set; in the remaining case it returns
    exactly one request, the key of the owning Cluster. *)
Theorem controlPlaneMachineToCluster_requests (w : World) (m : Machine) :
  let requests := controlPlaneMachineToCluster h w (OMachine m) in
  let lookup :=
    GetClusterByName w (Namespace (machineMeta m)) (ClusterName (machineSpec m)) in
  (IsControlPlaneMachine h m = false -> requests = []) /\
  (NodeRef (machineStatus m) = None -> requests = []) /\
  (forall err, lookup = inr err -> requests = []) /\
  (forall cluster, lookup = inl cluster ->
     ControlPlaneInitialized (clusterStatus cluster) = true -> requests = []) /\
  (forall cluster,
     IsControlPlaneMachine h m = true ->
     NodeRef (machineStatus m) <> None ->
     lookup = inl cluster ->
     ControlPlaneInitialized (clusterStatus cluster) = false ->
     requests = [ObjectKey cluster]) /\
  (List.length requests <= 1)%nat.
Proof.
  cbv zeta. unfold controlPlaneMachineToCluster.
  destruct (IsControlPlaneMachine h m) eqn:Ecp; simpl;
    destruct (NodeRef (machineStatus m)) as [n|] eqn:En; simpl;
    destruct (GetClusterByName w (Namespace (machineMeta m)) (ClusterName (machineSpec m)))
      as [cl|e] eqn:Eg; simpl;
    try destruct (ControlPlaneInitialized (clusterStatus cl)) eqn:Ei; simpl;
    repeat split; intros; try reflexivity; try discriminate; try congruence; auto with arith.
Qed.

(** *** The control-plane-initialized step *)

Lemma scanMachines_existsb (machines : list Machine) (c : Cluster) :
  scanMachines h machines c =
  (existsb (hasNode h) machines,
   if existsb (hasNode h) machines then setControlPlaneInitialized true c else c,
   []).
Proof.
  induction machines as [|m ms IH]; simpl; [reflexivity|].
  fold (hasNode h m). destruct (hasNode h m); simpl.
  - reflexivity.
  - exact IH.
Qed.

Lemma isSome_true {A} (o : option A) : isSome o = true <-> o <> None.
Proof. destruct o; simpl; split; congruence. Qed.

(** C7.  The control-plane-initialized step is a one-way latch.  With a
    [ControlPlaneRef] it is skipped: the Cluster is left as it is and no
    call is made.  With the flag already true it returns at once, again
    without any call.  It never turns a true flag into false, and it
    changes nothing of the Cluster but the flag.  When it does evaluate
    (no [ControlPlaneRef], flag false) and the active Machines are
    obtained, the flag is true afterwards exactly when one of those
    Machines is a control-plane Machine with a node reference; when
    obtaining them fails, that error is returned and the Cluster is left
    as it is. *)
Theorem reconcileControlPlaneInitialized_latch (w : World) (c : Cluster) :
  let '((res, err), c', tr) := reconcileControlPlaneInitialized h w c in
  (ControlPlaneRef (clusterSpec c) <> None ->
     c' = c /\ tr = [] /\ res = emptyResult /\ err = None) /\
  (ControlPlaneInitialized (clusterStatus c) = true ->
     c' = c /\ tr = [] /\ res = emptyResult /\ err = None) /\
  (ControlPlaneInitialized (clusterStatus c) = true ->
     ControlPlaneInitialized (clusterStatus c') = true) /\
  (c' = c \/ c' = setControlPlaneInitialized true c) /\
  (ControlPlaneRef (clusterSpec c) = None ->
   ControlPlaneInitialized (clusterStatus c) = false ->
   match getActiveMachinesInCluster w (Namespace (clusterMeta c)) (Name (clusterMeta c)) with
   | inl machines =>
       (ControlPlaneInitialized (clusterStatus c') = true <->
        exists m, In m machines /\ IsControlPlaneMachine h m = true /\
                  NodeRef (machineStatus m) <> None) /\
       res = emptyResult /\ err = None
   | inr e => c' = c /\ res = emptyResult /\ err = Some e
   end).
Proof.
  unfold reconcileControlPlaneInitialized, bind, getCl, emit, ret.
  destruct (ControlPlaneRef (clusterSpec c)) as [ref|] eqn:Eref; simpl.
  { repeat split; auto; try congruence. }
  destruct (ControlPlaneInitialized (clusterStatus c)) eqn:Einit; simpl.
  { repeat split; auto; try congruence. }
  destruct (getActiveMachinesInCluster w (Namespace (clusterMeta c)) (Name (clusterMeta c)))
    as [machines|e] eqn:Eget; simpl.
  2:{ repeat split; auto; try congruence. }
  rewrite scanMachines_existsb. simpl.
  split; [congruence|]. split; [discriminate|]. split; [discriminate|].
  split.
  { destruct (existsb (hasNode h) machines); auto. }
  intros _ _. split; [|split; reflexivity].
  destruct (existsb (hasNode h) machines) eqn:Ex; simpl.
  - split; [intros _|reflexivity].
    apply existsb_exists in Ex. destruct Ex as [m [Hin Hm]].
    unfold hasNode in Hm. apply andb_true_iff in Hm. destruct Hm as [H1 H2].
    exists m. repeat split; auto. now apply isSome_true.
  - rewrite Einit. split; [discriminate|].
    intros [m [Hin [H1 H2]]].
    assert (existsb (hasNode h) machines = true) as E.
    { apply existsb_exists. exists m. split; [assumption|].
      unfold hasNode. rewrite H1. now apply isSome_true. }
    congruence.
Qed.

(** *** The phases of the normal path *)

Lemma dropNil_map_Some (l : list error) : dropNil (map Some l) = l.
Proof. induction l; simpl; congruence. Qed.

Lemma NewAggregate_dropNil (l : list (option error)) :
  NewAggregate (map Some (dropNil l)) = NewAggregate l.
Proof. unfold NewAggregate. now rewrite dropNil_map_Some. Qed.

Lemma runPhases_runAll (phases : list (M (Result * option error))) :
  forall res errs c,
    runPhases phases res errs c =
    let '(outs, c', tr) := runAll phases c in
    ((match errs with
      | [] => fold_left LowestNonZeroResult (beforeFirstError outs) res
      | _ => res
      end,
      errs ++ dropNil (map snd outs)), c', tr).
Proof.
  induction phases as [|phase rest IH]; intros res errs c; simpl.
  - unfold ret. destruct errs; now rewrite ?app_nil_r.
  - unfold bind. destruct (phase c) as [[[r e] c1] t1].
    destruct e as [e|].
    + replace (0 <? List.length (errs ++ [e]))%nat with true
        by (symmetry; apply Nat.ltb_lt; rewrite length_app; simpl; lia).
      rewrite (IH res (errs ++ [e]) c1).
      destruct (runAll rest c1) as [[outs c2] t2]. unfold ret. simpl.
      rewrite <- app_assoc, app_nil_r. simpl.
      destruct errs; simpl; reflexivity.
    + destruct errs as [|e0 errs].
      * simpl. rewrite (IH (LowestNonZeroResult res r) [] c1).
        destruct (runAll rest c1) as [[outs c2] t2]. unfold ret. simpl.
        now rewrite app_nil_r.
      * simpl. rewrite (IH res (e0 :: errs) c1).
        destruct (runAll rest c1) as [[outs c2] t2]. unfold ret. simpl.
        now rewrite app_nil_r.
Qed.

Lemma LowestNonZeroResult_step (res r : Result) (seen : list Z) :
  lowestNonZero (RequeueAfter res) seen ->
  lowestNonZero (RequeueAfter (LowestNonZeroResult res r)) (seen ++ [RequeueAfter r]).
Proof.
  unfold lowestNonZero, LowestNonZeroResult.
  intros [[Hz Hall]|[Hnz [Hin Hmin]]].
  - rewrite Hz. simpl.
    destruct (Z.eq_dec (RequeueAfter r) 0) as [E|E].
    + left. split; [assumption|].
      intros x [Hx|[Hx|[]]]%in_app_or; [auto | congruence].
    + right. split; [assumption|]. split; [apply in_or_app; right; now left|].
      intros x [Hx|[Hx|[]]]%in_app_or Hne; [apply Hall in Hx; contradiction | lia].
  - destruct (RequeueAfter res =? 0) eqn:E0; [apply Z.eqb_eq in E0; contradiction|].
    destruct (RequeueAfter r =? 0) eqn:E1.
    + apply Z.eqb_eq in E1. right. split; [assumption|].
      split; [apply in_or_app; now left|].
      intros x [Hx|[Hx|[]]]%in_app_or Hne; [now apply Hmin | congruence].
    + apply Z.eqb_neq in E1.
      destruct (RequeueAfter res <? RequeueAfter r) eqn:E2.
      * apply Z.ltb_lt in E2. right. split; [assumption|].
        split; [apply in_or_app; now left|].
        intros x [Hx|[Hx|[]]]%in_app_or Hne; [now apply Hmin | lia].
      * apply Z.ltb_ge in E2. right. split; [assumption|].
        split; [apply in_or_app; right; now left|].
        intros x [Hx|[Hx|[]]]%in_app_or Hne; [specialize (Hmin x Hx Hne); lia | lia].
Qed.

Lemma fold_LowestNonZeroResult (rs : list Result) :
  forall res seen,
    lowestNonZero (RequeueAfter res) seen ->
    lowestNonZero (RequeueAfter (fold_left LowestNonZeroResult rs res))
                  (seen ++ map RequeueAfter rs).
Proof.
  induction rs as [|r rs IH]; intros res seen Hres; simpl.
  - now rewrite app_nil_r.
  - replace (seen ++ RequeueAfter r :: map RequeueAfter rs)
      with ((seen ++ [RequeueAfter r]) ++ map RequeueAfter rs)
      by (now rewrite <- app_assoc).
    apply IH. now apply LowestNonZeroResult_step.
Qed.

(** C5.  In a normal-path pass the four phase steps are each run once, in
    order, each on the Cluster as the step before left it, whether or not
    an earlier step failed: the Cluster and the calls at the end are those
    of the four steps in sequence.  The requeue-after of the merged result
    is the lowest non-zero requeue-after among the results of the steps
    that come before the first failing step (zero when there is none), and
    the returned error is the aggregate of all the errors of the steps. *)
Theorem reconcile_phases (w : World) (c : Cluster) :
  let '(o1, c1, t1) := reconcileInfrastructure h w c in
  let '(o2, c2, t2) := reconcileControlPlane h w c1 in
  let '(o3, c3, t3) := reconcileKubeconfig h w c2 in
  let '(o4, c4, t4) := reconcileControlPlaneInitialized h w c3 in
  let '((res, err), c', tr) := reconcile h w c in
  c' = c4 /\
  tr = t1 ++ t2 ++ t3 ++ t4 /\
  lowestNonZero (RequeueAfter res)
                (map RequeueAfter (beforeFirstError [o1; o2; o3; o4])) /\
  err = NewAggregate [snd o1; snd o2; snd o3; snd o4].
Proof.
  unfold reconcile. unfold bind at 1. rewrite runPhases_runAll.
  simpl runAll. unfold bind, ret.
  destruct (reconcileInfrastructure h w c) as [[o1 c1] t1].
  destruct (reconcileControlPlane h w c1) as [[o2 c2] t2].
  destruct (reconcileKubeconfig h w c2) as [[o3 c3] t3].
  destruct (reconcileControlPlaneInitialized h w c3) as [[o4 c4] t4].
  cbn [fst snd app map].
  split; [reflexivity|].
  split; [now rewrite !app_nil_r|].
  split.
  - apply (@fold_LowestNonZeroResult (beforeFirstError [o1; o2; o3; o4]) emptyResult []).
    left. split; [reflexivity|]. intros x [].
  - apply (NewAggregate_dropNil [snd o1; snd o2; snd o3; snd o4]).
Qed.

(** *** The descendants and the delete calls *)

Lemma fold_eachFunc (cluster : Cluster) (items : list Object) :
  forall owned,
    fold_left (eachFunc h cluster) items owned =
    owned ++ filter (fun o => IsOwnedByObject h (Accessor o) cluster) items.
Proof.
  induction items as [|o items IH]; intros owned; simpl.
  - now rewrite app_nil_r.
  - rewrite IH. unfold eachFunc.
    destruct (IsOwnedByObject h (Accessor o) cluster); simpl;
      now rewrite <- ?app_assoc.
Qed.

Lemma filterOwnedDescendants_filter (w : World) (d : clusterDescendants) (cluster : Cluster) :
  filterOwnedDescendants h w d cluster =
  (filter (fun o => IsOwnedByObject h (Accessor o) cluster) (inDeletionOrder w d), None).
Proof.
  unfold filterOwnedDescendants, inDeletionOrder.
  destruct (featureMachinePool w); simpl;
    rewrite !fold_eachFunc, !filter_app; simpl;
    now rewrite <- ?app_assoc.
Qed.

Lemma deleteChildren_trace (w : World) (cluster : Cluster) (children : list Object) :
  forall errs c,
    exists errs',
      deleteChildren w cluster children errs c =
      (errs ++ errs', c,
       map EvDelete (filter (fun o => IsZero (DeletionTimestamp (Accessor o))) children)) /\
      ((forall o, In o children -> deleteErr w o = None) -> errs' = []).
Proof.
  induction children as [|o children IH]; intros errs c; simpl.
  - exists []. unfold ret. now rewrite app_nil_r.
  - destruct (IsZero (DeletionTimestamp (Accessor o))) eqn:Ez; simpl.
    + unfold bind, clientDelete, emit, ret. simpl.
      destruct (deleteErr w o) as [e|] eqn:Ed.
      * match goal with
        | |- context [deleteChildren w cluster children (errs ++ [?x]) c] =>
            destruct (IH (errs ++ [x]) c) as [errs' [E Hnone]]; exists (x :: errs')
        end.
        rewrite E, <- app_assoc. simpl. split; [reflexivity|].
        intros Hall. specialize (Hall o (or_introl eq_refl)). congruence.
      * destruct (IH errs c) as [errs' [E Hnone]]. exists errs'.
        rewrite E. split; [reflexivity|]. intros Hall. apply Hnone.
        intros o' Ho'. apply Hall. now right.
    + destruct (IH errs c) as [errs' [E Hnone]]. exists errs'.
      split; [exact E|]. intros Hall. apply Hnone.
      intros o' Ho'. apply Hall. now right.
Qed.

Lemma listDescendants_ok (w : World) (cluster c c' : Cluster) (d : clusterDescendants)
    (t : list Event) :
  listDescendants h w cluster c = ((d, None), c', t) ->
  c' = c /\ t = listEvents w cluster /\
  d = {| machineDeployments := selected machineDeploymentMeta cluster (storeMachineDeployments w);
         machineSets := selected machineSetMeta cluster (storeMachineSets w);
         controlPlaneMachines :=
           match ControlPlaneRef (clusterSpec cluster) with
           | None => filter (IsControlPlaneMachine h)
                       (selected machineMeta cluster (storeMachines w))
           | Some _ => []
           end;
         workerMachines :=
           filter (fun m => negb (IsControlPlaneMachine h m))
             (selected machineMeta cluster (storeMachines w));
         machinePools :=
           if featureMachinePool w
           then selected machinePoolMeta cluster (storeMachinePools w)
           else [] |}.
Proof.
  unfold listDescendants, listEvents, clientList, selected, bind, emit, ret.
  destruct (listErr w KMachineDeployment); simpl; [discriminate|].
  destruct (listErr w KMachineSet); simpl; [discriminate|].
  destruct (featureMachinePool w); simpl.
  - destruct (listErr w KMachinePool); simpl; [discriminate|].
    destruct (listErr w KMachine); simpl; [discriminate|].
    rewrite splitMachineList_filter. simpl. intros E. inversion E. auto.
  - destruct (listErr w KMachine); simpl; [discriminate|].
    rewrite splitMachineList_filter. simpl. intros E. inversion E. auto.
Qed.

Lemma listDescendants_err (w : World) (cluster c c' : Cluster) (d : clusterDescendants)
    (e : error) (t : list Event) :
  listDescendants h w cluster c = ((d, Some e), c', t) ->
  c' = c /\ Forall (fun ev => match ev with EvList _ _ _ => True | _ => False end) t.
Proof.
  unfold listDescendants, clientList, bind, emit, ret.
  destruct (listErr w KMachineDeployment); simpl.
  { intros E. inversion E. split; [reflexivity|]. repeat constructor. }
  destruct (listErr w KMachineSet); simpl.
  { intros E. inversion E. split; [reflexivity|]. repeat constructor. }
  destruct (featureMachinePool w); simpl.
  - destruct (listErr w KMachinePool); simpl.
    { intros E. inversion E. split; [reflexivity|]. repeat constructor. }
    destruct (listErr w KMachine); simpl.
    { intros E. inversion E. split; [reflexivity|]. repeat constructor. }
    rewrite splitMachineList_filter. simpl. discriminate.
  - destruct (listErr w KMachine); simpl.
    { intros E. inversion E. split; [reflexivity|]. repeat constructor. }
    rewrite splitMachineList_filter. simpl. discriminate.
Qed.

Lemma filter_filter_andb {A} (f g : A -> bool) (l : list A) :
  filter g (filter f l) = filter (fun x => f x && g x) l.
Proof.
  induction l as [|a l IH]; simpl; [reflexivity|].
  destruct (f a); simpl; [destruct (g a)|]; now rewrite IH.
Qed.

(** The first part of [reconcileDelete]: it leaves the Cluster as it is;
    when listing fails it returns that error; otherwise it sends the delete
    calls in the order of [inDeletionOrder], returns the aggregate of the
    failures if any, else the requeue when descendants are counted, else
    falls through. *)
Lemma deleteDescendants_spec (w : World) (cluster c : Cluster) :
  match listDescendants h w cluster c with
  | ((d, None), _, t0) =>
      exists errs,
        deleteDescendants h w cluster c =
        (match errs with
         | [] => if (0 <? length_ d)%nat
                 then Some (requeueAfter deleteRequeueAfter, None)
                 else None
         | _ => Some (emptyResult, NewAggregate (map Some errs))
         end,
         c,
         t0 ++ map EvDelete (filter (toDelete h cluster) (inDeletionOrder w d))) /\
        ((forall o, In o (fst (filterOwnedDescendants h w d cluster)) ->
                    deleteErr w o = None) -> errs = [])
  | ((d, Some e), _, t0) =>
      deleteDescendants h w cluster c = (Some (emptyResult, Some e), c, t0)
  end.
Proof.
  unfold deleteDescendants, bind.
  destruct (listDescendants h w cluster c) as [[[d [e|]] c1] t0] eqn:El.
  - apply listDescendants_err in El. destruct El as [-> _].
    unfold ret. now rewrite app_nil_r.
  - apply listDescendants_ok in El. destruct El as [-> [_ _]].
    rewrite filterOwnedDescendants_filter. cbn beta iota. cbn [fst].
    set (children := filter (fun o => IsOwnedByObject h (Accessor o) cluster)
                            (inDeletionOrder w d)).
    assert ((if (0 <? List.length children)%nat
             then deleteChildren w cluster children []
             else ret []) = deleteChildren w cluster children []) as ->.
    { destruct children; reflexivity. }
    destruct (deleteChildren_trace w cluster children [] c) as [errs [E Hnone]].
    exists errs. split; [|exact Hnone].
    rewrite E. simpl.
    unfold children. rewrite filter_filter_andb. fold (toDelete h cluster).
    destruct errs as [|e errs]; simpl.
    + destruct (0 <? length_ d)%nat; unfold ret; now rewrite app_nil_r.
    + unfold ret. now rewrite app_nil_r.
Qed.

(** The condition a Cluster holds for a type after [conditions.Set]. *)
Lemma ConditionType_eqb_refl (t : ConditionType) : ConditionType_eqb t t = true.
Proof. destruct t; simpl; auto using String.eqb_refl. Qed.

Lemma ConditionType_eqb_eq (a b : ConditionType) : ConditionType_eqb a b = true -> a = b.
Proof.
  destruct a, b; simpl; try discriminate; try reflexivity.
  intros E. apply String.eqb_eq in E. now subst.
Qed.

Lemma GetCondition_SetCondition (now : Z) (cs : list Condition) (cond : Condition) :
  exists t, GetCondition (SetCondition now cs cond) (condType cond)
            = Some (withLastTransitionTime t cond).
Proof.
  unfold GetCondition.
  induction cs as [|old cs IH]; simpl.
  - exists now. now rewrite ConditionType_eqb_refl.
  - destruct (ConditionType_eqb (condType old) (condType cond)) eqn:E; simpl.
    + destruct (ConditionStatus_eqb (condStatus old) (condStatus cond)); simpl;
        rewrite ConditionType_eqb_refl; eauto.
    + rewrite E. exact IH.
Qed.

Lemma withCondition_get (w : World) (cond : Condition) (c : Cluster) :
  exists t, GetCondition (Conditions (clusterStatus (withCondition w cond c))) (condType cond)
            = Some (withLastTransitionTime t cond).
Proof. unfold withCondition. simpl. apply GetCondition_SetCondition. Qed.

Lemma deleteControlPlaneRef_outcome (w : World) (cluster c : Cluster) :
  deleteControlPlaneRef w cluster c =
  refBlockOutcome w cluster c ControlPlaneReadyCondition (ControlPlaneRef (clusterSpec cluster)).
Proof.
  unfold deleteControlPlaneRef, refBlockOutcome.
  destruct (ControlPlaneRef (clusterSpec cluster)) as [r|]; [|reflexivity].
  cbv beta iota delta [bind externalGetM emit ret clientDelete].
  destruct (externalGet w r (Namespace (clusterMeta cluster))) as [obj|err];
    cbv beta iota.
  - unfold deleteError. destruct (deleteErr w (OUnstructured obj)); reflexivity.
  - destruct (IsNotFound (Some (Cause err))); reflexivity.
Qed.

Lemma deleteInfrastructureRef_outcome (w : World) (cluster c : Cluster) :
  deleteInfrastructureRef w cluster c =
  refBlockOutcome w cluster c InfrastructureReadyCondition
    (InfrastructureRef (clusterSpec cluster)).
Proof.
  unfold deleteInfrastructureRef, refBlockOutcome.
  destruct (InfrastructureRef (clusterSpec cluster)) as [r|]; [|reflexivity].
  cbv beta iota delta [bind externalGetM emit ret clientDelete].
  destruct (externalGet w r (Namespace (clusterMeta cluster))) as [obj|err];
    cbv beta iota.
  - unfold deleteError. destruct (deleteErr w (OUnstructured obj)); reflexivity.
  - destruct (IsNotFound (Some (Cause err))); reflexivity.
Qed.

(** [reconcileDelete] as the sequence of its blocks. *)
Lemma reconcileDelete_blocks (w : World) (c : Cluster) :
  reconcileDelete h w c =
  let '(r0, c0, t0) := deleteDescendants h w c c in
  match r0 with
  | Some out => (out, c0, t0)
  | None =>
      let '(r1, c1, t1) :=
        refBlockOutcome w c c0 ControlPlaneReadyCondition (ControlPlaneRef (clusterSpec c)) in
      match r1 with
      | Some out => (out, c1, t0 ++ t1)
      | None =>
          let '(r2, c2, t2) :=
            refBlockOutcome w c c1 InfrastructureReadyCondition
              (InfrastructureRef (clusterSpec c)) in
          match r2 with
          | Some out => (out, c2, t0 ++ t1 ++ t2)
          | None =>
              ((emptyResult, None), RemoveFinalizer c2 ClusterFinalizer,
               t0 ++ t1 ++ t2 ++ [EvRemoveFinalizer ClusterFinalizer])
          end
      end
  end.
Proof.
  unfold reconcileDelete. unfold bind at 1. unfold getCl at 1. cbv beta iota.
  unfold bind at 1.
  destruct (deleteDescendants h w c c) as [[[out|] c0] t0]; cbv beta iota.
  { unfold ret. now rewrite app_nil_r. }
  unfold bind at 1. rewrite deleteControlPlaneRef_outcome.
  destruct (refBlockOutcome w c c0 ControlPlaneReadyCondition
              (ControlPlaneRef (clusterSpec c))) as [[[out|] c1] t1]; cbv beta iota.
  { unfold ret. now rewrite app_nil_r. }
  unfold bind at 1. rewrite deleteInfrastructureRef_outcome.
  destruct (refBlockOutcome w c c1 InfrastructureReadyCondition
              (InfrastructureRef (clusterSpec c))) as [[[out|] c2] t2]; cbv beta iota.
  { unfold ret. now rewrite app_nil_r. }
  unfold bind, emit, modify, ret. simpl. reflexivity.
Qed.

Lemma ConditionType_eqb_neq (a b : ConditionType) : a <> b -> ConditionType_eqb a b = false.
Proof.
  intros Hne. destruct (ConditionType_eqb a b) eqn:E; [|reflexivity].
  apply ConditionType_eqb_eq in E. contradiction.
Qed.

Lemma GetCondition_SetCondition_other (now : Z) (cs : list Condition) (cond : Condition)
    (t : ConditionType) :
  condType cond <> t ->
  GetCondition (SetCondition now cs cond) t = GetCondition cs t.
Proof.
  intros Hne. unfold GetCondition.
  induction cs as [|old cs IH]; simpl.
  - now rewrite (ConditionType_eqb_neq Hne).
  - destruct (ConditionType_eqb (condType old) (condType cond)) eqn:E; simpl.
    + apply ConditionType_eqb_eq in E. rewrite E.
      rewrite (ConditionType_eqb_neq Hne).
      destruct (ConditionStatus_eqb (condStatus old) (condStatus cond)); simpl;
        now rewrite (ConditionType_eqb_neq Hne).
    + destruct (ConditionType_eqb (condType old) t); [reflexivity | exact IH].
Qed.

Lemma mirror_type (t : ConditionType) (source : list Condition) (reason : ConditionReason) :
  condType (mirror t source (FalseCondition t reason ConditionSeverityInfo "")) = t.
Proof. unfold mirror. destruct (GetCondition source ReadyCondition); reflexivity. Qed.

(** A reference block touches nothing of the Cluster but the condition of
    its own type. *)
Lemma refBlockOutcome_frame (w : World) (cluster c : Cluster) (t : ConditionType)
    (ref : option ObjectReference) :
  let '(_, c', tr) := refBlockOutcome w cluster c t ref in
  clusterMeta c' = clusterMeta c /\
  clusterSpec c' = clusterSpec c /\
  (forall t', t <> t' ->
     GetCondition (Conditions (clusterStatus c')) t' =
     GetCondition (Conditions (clusterStatus c)) t') /\
  Forall isRefEvent tr.
Proof.
  unfold refBlockOutcome.
  destruct ref as [r|]; [|now repeat split].
  destruct (externalGet w r (Namespace (clusterMeta cluster))) as [obj|err].
  - repeat split; try (repeat constructor).
    intros t' Hne. unfold withCondition. simpl.
    apply GetCondition_SetCondition_other. now rewrite mirror_type.
  - destruct (IsNotFound (Some (Cause err))).
    + repeat split; try (repeat constructor).
      intros t' Hne. unfold withCondition. simpl.
      now apply GetCondition_SetCondition_other.
    + repeat split; try (repeat constructor).
Qed.

Lemma filter_refEvents (tr : list Event) :
  Forall isRefEvent tr ->
  filter isDescendantDelete tr = [] /\
  filter isAddFinalizer tr = [] /\
  filter isRemoveFinalizer tr = [].
Proof.
  induction 1 as [|e tr He _ IH]; [now repeat split|].
  destruct IH as [I1 [I2 I3]].
  destruct e as [| o | | | | | |]; try contradiction; simpl.
  - destruct o; try contradiction. now repeat split.
  - now repeat split.
Qed.

Lemma filter_listEvents (w : World) (c : Cluster) :
  filter isDescendantDelete (listEvents w c) = [] /\
  filter isAddFinalizer (listEvents w c) = [] /\
  filter isRemoveFinalizer (listEvents w c) = [].
Proof. unfold listEvents. destruct (featureMachinePool w); now repeat split. Qed.

Lemma filter_deletes (objs : list Object) :
  Forall isTyped objs ->
  filter isDescendantDelete (map EvDelete objs) = map EvDelete objs /\
  filter isAddFinalizer (map EvDelete objs) = [] /\
  filter isRemoveFinalizer (map EvDelete objs) = [].
Proof.
  induction 1 as [|o objs Ho _ IH]; [now repeat split|].
  destruct IH as [I1 [I2 I3]].
  destruct o; try contradiction; simpl; rewrite I1; now repeat split.
Qed.

Lemma Forall_map_constructor {A} (P : Object -> Prop) (f : A -> Object) (l : list A) :
  (forall a, P (f a)) -> Forall P (map f l).
Proof. intros Hf. apply Forall_forall. intros o [a [<- _]]%in_map_iff. apply Hf. Qed.

Lemma inDeletionOrder_typed (w : World) (d : clusterDescendants) :
  Forall isTyped (inDeletionOrder w d).
Proof.
  unfold inDeletionOrder.
  apply Forall_app; split.
  { destruct (featureMachinePool w); [|constructor].
    apply Forall_map_constructor; intros; exact I. }
  apply Forall_app; split; [apply Forall_map_constructor; intros; exact I|].
  apply Forall_app; split; [apply Forall_map_constructor; intros; exact I|].
  apply Forall_app; split; apply Forall_map_constructor; intros; exact I.
Qed.

Lemma Forall_filter_keep {A} (P : A -> Prop) (f : A -> bool) (l : list A) :
  Forall P l -> Forall P (filter f l).
Proof.
  rewrite !Forall_forall. intros Hl x [Hx _]%filter_In. now apply Hl.
Qed.

(** In a list made of elements outside a class followed by elements of
    the class, whatever follows an element of the class is in the class. *)
Lemma class_is_last {A} (p : A -> bool) (l1 l2 : list A) :
  Forall (fun x => p x = false) l1 ->
  Forall (fun x => p x = true) l2 ->
  forall pre x post,
    l1 ++ l2 = pre ++ x :: post -> p x = true -> Forall (fun y => p y = true) post.
Proof.
  induction l1 as [|a l1 IH]; intros H1 H2 pre x post E Hx; simpl in E.
  - rewrite E in H2. apply Forall_app in H2. destruct H2 as [_ H2].
    now inversion H2.
  - inversion H1 as [|? ? Ha H1']; subst.
    destruct pre as [|b pre]; simpl in E; inversion E; subst.
    + congruence.
    + eapply IH; eauto.
Qed.

(** The delete calls on descendants are those of the first part of
    [reconcileDelete]. *)
Lemma reconcileDelete_descendant_deletes (w : World) (c : Cluster) :
  let '(_, _, tr) := reconcileDelete h w c in
  filter isDescendantDelete tr =
  filter isDescendantDelete (snd (deleteDescendants h w c c)).
Proof.
  rewrite reconcileDelete_blocks.
  destruct (deleteDescendants h w c c) as [[r0 c0] t0]. cbn [snd].
  destruct r0 as [out|]; [reflexivity|].
  pose proof (refBlockOutcome_frame w c c0 ControlPlaneReadyCondition
                (ControlPlaneRef (clusterSpec c))) as F1.
  destruct (refBlockOutcome w c c0 ControlPlaneReadyCondition
              (ControlPlaneRef (clusterSpec c))) as [[r1 c1] t1].
  destruct F1 as [_ [_ [_ F1]]]. apply filter_refEvents in F1. destruct F1 as [F1 _].
  destruct r1 as [out|].
  { now rewrite filter_app, F1, app_nil_r. }
  pose proof (refBlockOutcome_frame w c c1 InfrastructureReadyCondition
                (InfrastructureRef (clusterSpec c))) as F2.
  destruct (refBlockOutcome w c c1 InfrastructureReadyCondition
              (InfrastructureRef (clusterSpec c))) as [[r2 c2] t2].
  destruct F2 as [_ [_ [_ F2]]]. apply filter_refEvents in F2. destruct F2 as [F2 _].
  destruct r2 as [out|].
  - now rewrite !filter_app, F1, F2, !app_nil_r.
  - rewrite !filter_app, F1, F2. simpl. now rewrite !app_nil_r.
Qed.

(** C4.  The delete calls [reconcileDelete] sends to descendants are, in
    this order: the MachinePools (when the feature is enabled), the
    MachineDeployments, the MachineSets, the worker Machines and the
    control-plane Machines of the descendants it listed, each of them when
    the Cluster owns it and it is not being deleted already.  With the
    feature disabled no MachinePool is sent a delete call; with a
    [ControlPlaneRef] no control-plane Machine is; and whatever is sent
    after a control-plane Machine is a control-plane Machine. *)
Theorem reconcileDelete_deletion_order (w : World) (c c0 : Cluster)
    (d : clusterDescendants) (t0 : list Event) :
  listDescendants h w c c = ((d, None), c0, t0) ->
  let '(_, _, tr) := reconcileDelete h w c in
  let deleted := filter (toDelete h c) (inDeletionOrder w d) in
  filter isDescendantDelete tr = map EvDelete deleted /\
  (featureMachinePool w = false -> forall mp, ~ In (OMachinePool mp) deleted) /\
  (ControlPlaneRef (clusterSpec c) <> None ->
     forall o, In o deleted -> isControlPlaneObject h o = false) /\
  (forall pre o post,
     deleted = pre ++ o :: post ->
     isControlPlaneObject h o = true ->
     Forall (fun o' => isControlPlaneObject h o' = true) post).
Proof.
  intros Hl.
  pose proof (deleteDescendants_spec w c c) as Hd. rewrite Hl in Hd.
  destruct Hd as [errs [Hd _]].
  destruct (listDescendants_ok _ _ _ Hl) as [-> [-> Ed]].
  pose proof (filter_listEvents w c) as [L1 _].
  pose proof (filter_deletes (Forall_filter_keep (toDelete h c) (inDeletionOrder_typed w d)))
    as [D1 _].
  assert (filter isDescendantDelete
            (listEvents w c ++ map EvDelete (filter (toDelete h c) (inDeletionOrder w d)))
          = map EvDelete (filter (toDelete h c) (inDeletionOrder w d))) as Hpre.
  { now rewrite filter_app, L1, D1. }
  assert (forall o, In o (map OMachine (workerMachines d)) ->
                    isControlPlaneObject h o = false) as Hw.
  { intros o [m [<- Hm]]%in_map_iff. rewrite Ed in Hm. simpl in Hm.
    apply filter_In in Hm. destruct Hm as [_ Hm]. simpl.
    now apply negb_true_iff in Hm. }
  assert (forall o, In o (map OMachine (controlPlaneMachines d)) ->
                    isControlPlaneObject h o = true) as Hc.
  { intros o [m [<- Hm]]%in_map_iff. rewrite Ed in Hm. simpl in Hm.
    destruct (ControlPlaneRef (clusterSpec c)); [destruct Hm|].
    apply filter_In in Hm. now destruct Hm. }
  pose proof (reconcileDelete_descendant_deletes w c) as Htr.
  rewrite Hd in Htr.
  destruct (reconcileDelete h w c) as [[out c'] tr].
  cbn [snd] in Htr. rewrite Hpre in Htr.
  cbv zeta. split; [exact Htr|].
  split.
  { intros Hgate mp [Hin _]%filter_In. unfold inDeletionOrder in Hin.
    rewrite Hgate in Hin. simpl in Hin.
    repeat (apply in_app_or in Hin; destruct Hin as [Hin|Hin]);
      apply in_map_iff in Hin; destruct Hin as [x [Hx _]]; discriminate. }
  split.
  { intros Href o [Hin _]%filter_In. unfold inDeletionOrder in Hin.
    apply in_app_or in Hin. destruct Hin as [Hin|Hin].
    { destruct (featureMachinePool w); [|destruct Hin].
      apply in_map_iff in Hin. destruct Hin as [x [<- _]]. reflexivity. }
    apply in_app_or in Hin. destruct Hin as [Hin|Hin].
    { apply in_map_iff in Hin. destruct Hin as [x [<- _]]. reflexivity. }
    apply in_app_or in Hin. destruct Hin as [Hin|Hin].
    { apply in_map_iff in Hin. destruct Hin as [x [<- _]]. reflexivity. }
    apply in_app_or in Hin. destruct Hin as [Hin|Hin].
    { now apply Hw. }
    rewrite Ed in Hin. simpl in Hin.
    destruct (ControlPlaneRef (clusterSpec c)); [destruct Hin | congruence]. }
  unfold inDeletionOrder. rewrite !app_assoc, filter_app.
  apply class_is_last.
  - apply Forall_filter_keep. rewrite <- !app_assoc.
    apply Forall_app; split.
    { destruct (featureMachinePool w); [|constructor].
      apply Forall_map_constructor. reflexivity. }
    apply Forall_app; split; [apply Forall_map_constructor; reflexivity|].
    apply Forall_app; split; [apply Forall_map_constructor; reflexivity|].
    apply Forall_forall. exact Hw.
  - apply Forall_filter_keep. apply Forall_forall. exact Hc.
Qed.

(** *** The external references *)

Lemma marked_false (w : World) (t : ConditionType) (reason : ConditionReason) (c : Cluster) :
  exists cond,
    GetCondition
      (Conditions (clusterStatus
         (withCondition w (FalseCondition t reason ConditionSeverityInfo "") c))) t
    = Some cond /\ isFalseWith reason cond.
Proof.
  destruct (withCondition_get w (FalseCondition t reason ConditionSeverityInfo "") c)
    as [t' E].
  simpl in E. eexists. split; [exact E|]. now repeat split.
Qed.

Lemma mirrored (w : World) (t : ConditionType) (source : list Condition) (c : Cluster) :
  exists cond,
    GetCondition
      (Conditions (clusterStatus
         (withCondition w
            (mirror t source (FalseCondition t DeletingReason ConditionSeverityInfo "")) c))) t
    = Some cond /\
    match GetCondition source ReadyCondition with
    | Some remote => sameState cond remote
    | None => isFalseWith DeletingReason cond
    end.
Proof.
  destruct (withCondition_get w
              (mirror t source (FalseCondition t DeletingReason ConditionSeverityInfo "")) c)
    as [t' E].
  rewrite mirror_type in E. eexists. split; [exact E|].
  unfold mirror. destruct (GetCondition source ReadyCondition); now repeat split.
Qed.

Lemma get_other (w : World) (cond : Condition) (c : Cluster) (t : ConditionType) :
  condType cond <> t ->
  GetCondition (Conditions (clusterStatus (withCondition w cond c))) t =
  GetCondition (Conditions (clusterStatus c)) t.
Proof. intros Hne. unfold withCondition. simpl. now apply GetCondition_SetCondition_other. Qed.

Lemma Finalizer_eqb_sym (a b : Finalizer) : Finalizer_eqb a b = Finalizer_eqb b a.
Proof. destruct a, b; simpl; auto using String.eqb_sym. Qed.

Lemma ContainsFinalizer_RemoveFinalizer (c : Cluster) (f : Finalizer) :
  ContainsFinalizer (RemoveFinalizer c f) f = false.
Proof.
  unfold ContainsFinalizer, RemoveFinalizer. simpl.
  induction (Finalizers (clusterMeta c)) as [|e l IH]; simpl; [reflexivity|].
  destruct (Finalizer_eqb e f) eqn:E; simpl; [exact IH|].
  now rewrite Finalizer_eqb_sym, E, IH.
Qed.

Lemma clusterStatus_RemoveFinalizer (c : Cluster) (f : Finalizer) :
  clusterStatus (RemoveFinalizer c f) = clusterStatus c.
Proof. reflexivity. Qed.

(** The control-plane reference in a pass whose descendants are drained. *)
Lemma reconcileDelete_controlPlaneRef (w : World) (c : Cluster) (t0 : list Event)
    (ref : ObjectReference) :
  deleteDescendants h w c c = (None, c, t0) ->
  ControlPlaneRef (clusterSpec c) = Some ref ->
  let ns := Namespace (clusterMeta c) in
  let '((res, err), c', tr) := reconcileDelete h w c in
  match externalGet w ref ns with
  | inr e =>
      if IsNotFound (Some (Cause e)) then
        (exists cond,
           GetCondition (Conditions (clusterStatus c')) ControlPlaneReadyCondition
           = Some cond /\ isFalseWith DeletedReason cond) /\
        (exists rest,
           tr = t0 ++ EvExternalGet ref ns :: rest /\
           match InfrastructureRef (clusterSpec c) with
           | Some ref' => exists rest', rest = EvExternalGet ref' ns :: rest'
           | None => rest = [EvRemoveFinalizer ClusterFinalizer]
           end)
      else
        res = emptyResult /\ err = Some (getError c ref e) /\ c' = c /\
        tr = t0 ++ [EvExternalGet ref ns]
  | inl obj =>
      res = emptyResult /\ err = deleteError w c obj /\
      tr = t0 ++ [EvExternalGet ref ns; EvDelete (OUnstructured obj)] /\
      Finalizers (clusterMeta c') = Finalizers (clusterMeta c) /\
      exists cond,
        GetCondition (Conditions (clusterStatus c')) ControlPlaneReadyCondition
        = Some cond /\
        match GetCondition (uConditions obj) ReadyCondition with
        | Some remote => sameState cond remote
        | None => isFalseWith DeletingReason cond
        end
  end.
Proof.
  intros Hd Href. cbv zeta.
  rewrite reconcileDelete_blocks, Hd, Href.
  unfold refBlockOutcome at 1.
  destruct (externalGet w ref (Namespace (clusterMeta c))) as [obj|e].
  - repeat split. apply mirrored.
  - destruct (IsNotFound (Some (Cause e))); [|now repeat split].
    pose proof (marked_false w ControlPlaneReadyCondition DeletedReason c) as Hm.
    set (c1 := withCondition w
                 (FalseCondition ControlPlaneReadyCondition DeletedReason
                    ConditionSeverityInfo "") c) in *.
    unfold refBlockOutcome.
    destruct (InfrastructureRef (clusterSpec c)) as [ref'|].
    + destruct (externalGet w ref' (Namespace (clusterMeta c))) as [obj'|e'];
        [|destruct (IsNotFound (Some (Cause e')))];
        (split;
         [ rewrite ?clusterStatus_RemoveFinalizer;
           try (rewrite get_other by (try rewrite mirror_type; discriminate)); exact Hm
         | eexists; split; [simpl; reflexivity | eexists; reflexivity] ]).
    + split; [exact Hm|]. eexists. split; reflexivity.
Qed.

(** The infrastructure reference in a pass whose descendants are drained
    and whose control-plane reference is absent. *)
Lemma reconcileDelete_infrastructureRef (w : World) (c : Cluster) (t0 : list Event)
    (ref : ObjectReference) :
  deleteDescendants h w c c = (None, c, t0) ->
  InfrastructureRef (clusterSpec c) = Some ref ->
  refAbsent w (Namespace (clusterMeta c)) (ControlPlaneRef (clusterSpec c)) = true ->
  let ns := Namespace (clusterMeta c) in
  let '((res, err), c', tr) := reconcileDelete h w c in
  match externalGet w ref ns with
  | inr e =>
      if IsNotFound (Some (Cause e)) then
        (exists cond,
           GetCondition (Conditions (clusterStatus c')) InfrastructureReadyCondition
           = Some cond /\ isFalseWith DeletedReason cond) /\
        (exists pre,
           tr = pre ++ [EvExternalGet ref ns; EvRemoveFinalizer ClusterFinalizer]) /\
        ContainsFinalizer c' ClusterFinalizer = false /\
        res = emptyResult /\ err = None
      else
        res = emptyResult /\ err = Some (getError c ref e) /\
        Finalizers (clusterMeta c') = Finalizers (clusterMeta c) /\
        exists pre, tr = pre ++ [EvExternalGet ref ns]
  | inl obj =>
      res = emptyResult /\ err = deleteError w c obj /\
      (exists pre, tr = pre ++ [EvExternalGet ref ns; EvDelete (OUnstructured obj)]) /\
      Finalizers (clusterMeta c') = Finalizers (clusterMeta c) /\
      exists cond,
        GetCondition (Conditions (clusterStatus c')) InfrastructureReadyCondition
        = Some cond /\
        match GetCondition (uConditions obj) ReadyCondition with
        | Some remote => sameState cond remote
        | None => isFalseWith DeletingReason cond
        end
  end.
Proof.
  intros Hd Href Habs. cbv zeta.
  rewrite reconcileDelete_blocks, Hd, Href.
  assert (exists c1 t1,
            refBlockOutcome w c c ControlPlaneReadyCondition (ControlPlaneRef (clusterSpec c))
            = (None, c1, t1) /\
            Finalizers (clusterMeta c1) = Finalizers (clusterMeta c)) as [c1 [t1 [E1 F1]]].
  { unfold refBlockOutcome, refAbsent in *.
    destruct (ControlPlaneRef (clusterSpec c)) as [r|]; [|eauto].
    destruct (externalGet w r (Namespace (clusterMeta c))) as [obj|e]; [discriminate|].
    rewrite Habs. eauto. }
  rewrite E1. unfold refBlockOutcome.
  destruct (externalGet w ref (Namespace (clusterMeta c))) as [obj|e].
  - split; [reflexivity|]. split; [reflexivity|].
    split; [exists (t0 ++ t1); now rewrite <- app_assoc|].
    split; [exact F1|]. apply mirrored.
  - destruct (IsNotFound (Some (Cause e))).
    + split; [apply marked_false|].
      split; [exists (t0 ++ t1); now rewrite <- !app_assoc|].
      split; [apply ContainsFinalizer_RemoveFinalizer|]. now split.
    + split; [reflexivity|]. split; [reflexivity|]. split; [exact F1|].
      exists (t0 ++ t1). now rewrite <- app_assoc.
Qed.

(** C6.  In a deletion pass whose descendants are drained, a set
    [ControlPlaneRef] is resolved.  When the cause of the error is
    NotFound, the control-plane-readiness condition is False with reason
    Deleted and the pass goes on to the infrastructure reference (or, when
    there is none, to the removal of the finalizer).  When resolving fails
    otherwise, that error is returned, wrapped, and nothing else is done.
    When the object is found, the condition takes the state of the
    object's readiness condition (False with reason Deleting when it has
    none), a delete call on the object is the last call of the pass, and
    the finalizers are left as they were.  The same holds for
    [InfrastructureRef] once the control-plane reference is absent, the
    NotFound case leading to the removal of the finalizer. *)
Theorem reconcileDelete_external_refs (w : World) (c : Cluster) (t0 : list Event) :
  deleteDescendants h w c c = (None, c, t0) ->
  let ns := Namespace (clusterMeta c) in
  let '((res, err), c', tr) := reconcileDelete h w c in
  (forall ref,
     ControlPlaneRef (clusterSpec c) = Some ref ->
     match externalGet w ref ns with
     | inr e =>
         if IsNotFound (Some (Cause e)) then
           (exists cond,
              GetCondition (Conditions (clusterStatus c')) ControlPlaneReadyCondition
              = Some cond /\ isFalseWith DeletedReason cond) /\
           (exists rest,
              tr = t0 ++ EvExternalGet ref ns :: rest /\
              match InfrastructureRef (clusterSpec c) with
              | Some ref' => exists rest', rest = EvExternalGet ref' ns :: rest'
              | None => rest = [EvRemoveFinalizer ClusterFinalizer]
              end)
         else
           res = emptyResult /\ err = Some (getError c ref e) /\ c' = c /\
           tr = t0 ++ [EvExternalGet ref ns]
     | inl obj =>
         res = emptyResult /\ err = deleteError w c obj /\
         tr = t0 ++ [EvExternalGet ref ns; EvDelete (OUnstructured obj)] /\
         Finalizers (clusterMeta c') = Finalizers (clusterMeta c) /\
         exists cond,
           GetCondition (Conditions (clusterStatus c')) ControlPlaneReadyCondition
           = Some cond /\
           match GetCondition (uConditions obj) ReadyCondition with
           | Some remote => sameState cond remote
           | None => isFalseWith DeletingReason cond
           end
     end) /\
  (forall ref,
     InfrastructureRef (clusterSpec c) = Some ref ->
     refAbsent w ns (ControlPlaneRef (clusterSpec c)) = true ->
     match externalGet w ref ns with
     | inr e =>
         if IsNotFound (Some (Cause e)) then
           (exists cond,
              GetCondition (Conditions (clusterStatus c')) InfrastructureReadyCondition
              = Some cond /\ isFalseWith DeletedReason cond) /\
           (exists pre,
              tr = pre ++ [EvExternalGet ref ns; EvRemoveFinalizer ClusterFinalizer]) /\
           ContainsFinalizer c' ClusterFinalizer = false /\
           res = emptyResult /\ err = None
         else
           res = emptyResult /\ err = Some (getError c ref e) /\
           Finalizers (clusterMeta c') = Finalizers (clusterMeta c) /\
           exists pre, tr = pre ++ [EvExternalGet ref ns]
     | inl obj =>
         res = emptyResult /\ err = deleteError w c obj /\
         (exists pre, tr = pre ++ [EvExternalGet ref ns; EvDelete (OUnstructured obj)]) /\
         Finalizers (clusterMeta c') = Finalizers (clusterMeta c) /\
         exists cond,
           GetCondition (Conditions (clusterStatus c')) InfrastructureReadyCondition
           = Some cond /\
           match GetCondition (uConditions obj) ReadyCondition with
           | Some remote => sameState cond remote
           | None => isFalseWith DeletingReason cond
           end
     end).
Proof.
  intros Hd. cbv zeta.
  pose proof (fun ref => @reconcileDelete_controlPlaneRef w c t0 ref Hd) as Hcp.
  pose proof (fun ref => @reconcileDelete_infrastructureRef w c t0 ref Hd) as Hinfra.
  cbv zeta in Hcp, Hinfra.
  destruct (reconcileDelete h w c) as [[[res err] c'] tr].
  split; [exact Hcp | exact Hinfra].
Qed.

(** *** The finalizer *)

Lemma filter_EvList (tr : list Event) :
  Forall (fun ev => match ev with EvList _ _ _ => True | _ => False end) tr ->
  filter isAddFinalizer tr = [] /\ filter isRemoveFinalizer tr = [].
Proof.
  induction 1 as [|e tr He _ [I1 I2]]; [now split|].
  destruct e; try contradiction. simpl. now split.
Qed.

(** The first part of [reconcileDelete] leaves the Cluster and its
    finalizers alone. *)
Lemma deleteDescendants_frame (w : World) (c : Cluster) :
  let '(_, c0, t0) := deleteDescendants h w c c in
  c0 = c /\ filter isAddFinalizer t0 = [] /\ filter isRemoveFinalizer t0 = [].
Proof.
  pose proof (deleteDescendants_spec w c c) as Hd.
  destruct (listDescendants h w c c) as [[[d [e|]] c1] t] eqn:El.
  - rewrite Hd. apply listDescendants_err in El. destruct El as [_ El].
    apply filter_EvList in El. now split.
  - destruct Hd as [errs [-> _]].
    apply listDescendants_ok in El. destruct El as [_ [-> _]].
    pose proof (filter_listEvents w c) as [_ [L2 L3]].
    pose proof (filter_deletes
                  (Forall_filter_keep (toDelete h c) (inDeletionOrder_typed w d)))
      as [_ [D2 D3]].
    rewrite !filter_app, L2, L3, D2, D3. now split.
Qed.

(** [reconcileDelete] adds no finalizer, removes one at most once, and
    leaves the finalizers as they were unless it removes the Cluster
    finalizer. *)
Lemma reconcileDelete_finalizers (w : World) (c : Cluster) :
  let '(_, c', tr) := reconcileDelete h w c in
  countEvents isAddFinalizer tr = 0%nat /\
  ((countEvents isRemoveFinalizer tr = 0%nat /\
    Finalizers (clusterMeta c') = Finalizers (clusterMeta c)) \/
   (countEvents isRemoveFinalizer tr = 1%nat /\
    In (EvRemoveFinalizer ClusterFinalizer) tr /\
    Finalizers (clusterMeta c') =
      filter (fun e => negb (Finalizer_eqb e ClusterFinalizer))
             (Finalizers (clusterMeta c)))).
Proof.
  rewrite reconcileDelete_blocks.
  pose proof (deleteDescendants_frame w c) as Hf.
  destruct (deleteDescendants h w c c) as [[r0 c0] t0].
  destruct Hf as [-> [A0 R0]].
  unfold countEvents.
  destruct r0 as [out|].
  { rewrite A0, R0. split; [reflexivity|]. left. now split. }
  pose proof (refBlockOutcome_frame w c c ControlPlaneReadyCondition
                (ControlPlaneRef (clusterSpec c))) as F1.
  destruct (refBlockOutcome w c c ControlPlaneReadyCondition
              (ControlPlaneRef (clusterSpec c))) as [[r1 c1] t1].
  destruct F1 as [M1 [_ [_ F1]]]. apply filter_refEvents in F1.
  destruct F1 as [_ [A1 R1]].
  destruct r1 as [out|].
  { rewrite !filter_app, A0, R0, A1, R1, M1. split; [reflexivity|]. left. now split. }
  pose proof (refBlockOutcome_frame w c c1 InfrastructureReadyCondition
                (InfrastructureRef (clusterSpec c))) as F2.
  destruct (refBlockOutcome w c c1 InfrastructureReadyCondition
              (InfrastructureRef (clusterSpec c))) as [[r2 c2] t2].
  destruct F2 as [M2 [_ [_ F2]]]. apply filter_refEvents in F2.
  destruct F2 as [_ [A2 R2]].
  destruct r2 as [out|].
  { rewrite !filter_app, A0, R0, A1, R1, A2, R2, M2, M1.
    split; [reflexivity|]. left. now split. }
  rewrite !filter_app, A0, R0, A1, R1, A2, R2. simpl.
  split; [reflexivity|]. right. split; [reflexivity|].
  split; [|now rewrite M2, M1].
  apply in_or_app. right. apply in_or_app. right. apply in_or_app. right. now left.
Qed.

Lemma refBlockOutcome_falls_through (w : World) (cluster c : Cluster) (t : ConditionType)
    (ref : option ObjectReference) :
  fst (fst (refBlockOutcome w cluster c t ref)) = None <->
  refAbsent w (Namespace (clusterMeta cluster)) ref = true.
Proof.
  unfold refBlockOutcome, refAbsent.
  destruct ref as [r|]; [|now split].
  destruct (externalGet w r (Namespace (clusterMeta cluster))) as [obj|e].
  - simpl. split; discriminate.
  - destruct (IsNotFound (Some (Cause e))); simpl; split; congruence.
Qed.





(** *** The entry point *)

Lemma deferred_outcome (w : World) (reterr : option error) (c : Cluster) :
  deferred h w reterr c =
  (match patchErr w (summarized h w c) (patchOptions reterr) with
   | Some e => NewAggregate [reterr; Some e]
   | None => reterr
   end,
   summarized h w c,
   [EvReconcilePhase; EvPatch (patchOptions reterr)]).
Proof.
  unfold deferred, patchCluster, reconcilePhase, SetSummary, summarized.
  cbv beta iota zeta delta [bind emit modify getCl ret Set_ withCondition].
  destruct (summary h (setPhase (phaseOf h c) c)
              [ControlPlaneReadyCondition; InfrastructureReadyCondition]) as [cond|];
    destruct reterr as [e0|]; unfold patchOptions, ownedConditions; cbn [app];
    match goal with
    | |- context [patchErr w ?x ?o] => destruct (patchErr w x o)
    end; reflexivity.
Qed.

Lemma summarized_frame (w : World) (c : Cluster) :
  clusterMeta (summarized h w c) = clusterMeta c /\
  clusterSpec (summarized h w c) = clusterSpec c /\
  Phase (clusterStatus (summarized h w c)) = phaseOf h c.
Proof.
  unfold summarized.
  destruct (summary h (setPhase (phaseOf h c) c)
              [ControlPlaneReadyCondition; InfrastructureReadyCondition]);
    now repeat split.
Qed.

Lemma reconcileWithDefer_outcome (w : World) (c : Cluster) :
  reconcileWithDefer h w c =
  let '((res, reterr), c0, tr0) := reconcileBody h w c in
  ((res,
    match patchErr w (summarized h w c0) (patchOptions reterr) with
    | Some e => NewAggregate [reterr; Some e]
    | None => reterr
    end),
   summarized h w c0,
   tr0 ++ [EvReconcilePhase; EvPatch (patchOptions reterr)]).
Proof.
  unfold reconcileWithDefer. unfold bind at 1.
  destruct (reconcileBody h w c) as [[[res reterr] c0] tr0].
  unfold bind. rewrite deferred_outcome. unfold ret. now rewrite app_nil_r.
Qed.

(** C9.  When [Reconcile] gets past the fetch, the pause check and the
    creation of the patch helper, whatever the rest of the pass returns,
    its last two calls are the recomputation of the phase and one patch.
    The options of the patch hold the option that updates the observed
    generation exactly when the pass returned no error, and always the
    declaration of the three owned condition types: readiness,
    control-plane readiness, infrastructure readiness.  The result of the
    pass is kept; a failure of the patch is aggregated with its error. *)
Theorem Reconcile_deferred_patch (w : World) (req : NamespacedName) (c : Cluster) :
  getCluster w req = inl c ->
  IsPaused h c c = false ->
  newHelperErr w c = None ->
  let '((res0, reterr), c0, tr0) := reconcileBody h w c in
  exists c' opts,
    Reconcile h w req =
    ((res0,
      match patchErr w c' opts with
      | Some e => NewAggregate [reterr; Some e]
      | None => reterr
      end),
     Some c',
     tr0 ++ [EvReconcilePhase; EvPatch opts]) /\
    Phase (clusterStatus c') = phaseOf h c0 /\
    (In WithStatusObservedGeneration opts <-> reterr = None) /\
    In (WithOwnedConditions [ReadyCondition; ControlPlaneReadyCondition;
                             InfrastructureReadyCondition]) opts /\
    (forall o, In o opts ->
       o = WithStatusObservedGeneration \/
       o = WithOwnedConditions [ReadyCondition; ControlPlaneReadyCondition;
                                InfrastructureReadyCondition]).
Proof.
  intros Hget Hpaused Hhelper.
  unfold Reconcile. rewrite Hget, Hpaused, Hhelper, reconcileWithDefer_outcome.
  destruct (reconcileBody h w c) as [[[res0 reterr] c0] tr0].
  exists (summarized h w c0), (patchOptions reterr).
  split; [reflexivity|].
  split; [apply summarized_frame|].
  destruct reterr as [e|]; simpl; unfold ownedConditions.
  - split; [split; [intros [H0|[]]; discriminate | discriminate]|].
    split; [now left|]. intros o [<-|[]]. now right.
  - split; [split; [reflexivity | intros _; now left]|].
    split; [right; now left|]. intros o [<-|[<-|[]]]; auto.
Qed.

Lemma reconcileBody_with_finalizer (w : World) (c : Cluster) :
  ContainsFinalizer c ClusterFinalizer = true ->
  IsZero (DeletionTimestamp (clusterMeta c)) = false ->
  reconcileBody h w c = reconcileDelete h w c.
Proof.
  intros Hf Hz. unfold reconcileBody, bind, getCl. rewrite Hf, Hz. simpl.
  now destruct (reconcileDelete h w c) as [[out c'] tr].
Qed.

Lemma reconcileBody_without_finalizer (w : World) (c : Cluster) :
  ContainsFinalizer c ClusterFinalizer = false ->
  reconcileBody h w c =
  ((emptyResult, None), AddFinalizer c ClusterFinalizer,
   [EvAddFinalizer ClusterFinalizer]).
Proof.
  intros Hf. unfold reconcileBody, bind, getCl. rewrite Hf. reflexivity.
Qed.

(** C3, as the code has it.  On a Cluster with a non-zero deletion
    timestamp that carries the Cluster finalizer, a pass that gets past
    the fetch, the pause check and the patch helper runs the deletion path
    and not the normal path, adds no finalizer, and leaves no finalizer on
    the Cluster that was not there.  On a Cluster that does not carry the
    Cluster finalizer, the pass adds it first, whatever the deletion
    timestamp, and runs neither path. *)
Theorem Reconcile_deleting (w : World) (req : NamespacedName) (c : Cluster) :
  getCluster w req = inl c ->
  IsPaused h c c = false ->
  newHelperErr w c = None ->
  IsZero (DeletionTimestamp (clusterMeta c)) = false ->
  let '(_, oc, tr) := Reconcile h w req in
  if ContainsFinalizer c ClusterFinalizer then
    reconcileBody h w c = reconcileDelete h w c /\
    countEvents isAddFinalizer tr = 0%nat /\
    exists c', oc = Some c' /\
      forall f, In f (Finalizers (clusterMeta c')) -> In f (Finalizers (clusterMeta c))
  else
    reconcileBody h w c =
      ((emptyResult, None), AddFinalizer c ClusterFinalizer,
       [EvAddFinalizer ClusterFinalizer]) /\
    tr = [EvAddFinalizer ClusterFinalizer; EvReconcilePhase;
          EvPatch [WithStatusObservedGeneration;
                   WithOwnedConditions [ReadyCondition; ControlPlaneReadyCondition;
                                        InfrastructureReadyCondition]]] /\
    exists c', oc = Some c' /\
      Finalizers (clusterMeta c') = Finalizers (clusterMeta c) ++ [ClusterFinalizer].
Proof.
  intros Hget Hpaused Hhelper Hz.
  unfold Reconcile. rewrite Hget, Hpaused, Hhelper, reconcileWithDefer_outcome.
  destruct (ContainsFinalizer c ClusterFinalizer) eqn:Hf.
  - rewrite (reconcileBody_with_finalizer w c Hf Hz).
    pose proof (reconcileDelete_finalizers w c) as Hfin.
    destruct (reconcileDelete h w c) as [[[res reterr] c0] tr0].
    destruct Hfin as [Hadd Hrem].
    split; [reflexivity|]. split.
    + unfold countEvents in *. rewrite filter_app.
      rewrite length_app, Hadd. reflexivity.
    + exists (summarized h w c0). split; [reflexivity|].
      destruct (summarized_frame w c0) as [-> _].
      intros f Hin. destruct Hrem as [[_ E]|[_ [_ E]]]; rewrite E in Hin; [exact Hin|].
      now apply filter_In in Hin.
  - rewrite (reconcileBody_without_finalizer w c Hf).
    split; [reflexivity|]. split; [reflexivity|].
    eexists. split; [reflexivity|].
    destruct (summarized_frame w (AddFinalizer c ClusterFinalizer)) as [-> _].
    unfold AddFinalizer. rewrite Hf. reflexivity.
Qed.

End Properties.

(* ------------------------------------------------------------------ *)
(** ** Further properties of the controller *)

Section Behaviour.

Variable h : Helpers.

(** *** Listing the descendants *)

Lemma matchesListOptions_belongsTo (cluster : Cluster) (m : ObjectMeta) :
  matchesListOptions (Namespace (clusterMeta cluster)) (Name (clusterMeta cluster)) m = true
  <-> belongsTo cluster m.
Proof.
  unfold matchesListOptions, belongsTo.
  rewrite andb_true_iff, String.eqb_eq.
  destruct (lookupLabel ClusterLabelName (Labels m)) as [v|].
  - rewrite String.eqb_eq. split; intros [H1 H2]; split; congruence.
  - split; intros [H1 H2]; discriminate.
Qed.

Lemma selected_In {T} (meta : T -> ObjectMeta) (cluster : Cluster) (store : list T) (o : T) :
  In o (selected meta cluster store) <-> In o store /\ belongsTo cluster (meta o).
Proof.
  unfold selected. rewrite filter_In, matchesListOptions_belongsTo. reflexivity.
Qed.

(** X1.  What a successful [listDescendants] returns: of each kind, exactly
    the objects of the store in the namespace of the cluster whose
    cluster-name label is the name of the cluster; MachinePools only with
    the feature enabled; a Machine among the workers when it is not a
    control-plane Machine, among the control-plane Machines when it is one
    and the Cluster has no [ControlPlaneRef].  With a [ControlPlaneRef] the
    control-plane Machines are in neither list. *)
Theorem listDescendants_selection (w : World) (cluster c c' : Cluster)
    (d : clusterDescendants) (t : list Event) :
  listDescendants h w cluster c = ((d, None), c', t) ->
  (forall md, In md (machineDeployments d) <->
     In md (storeMachineDeployments w) /\ belongsTo cluster (machineDeploymentMeta md)) /\
  (forall ms, In ms (machineSets d) <->
     In ms (storeMachineSets w) /\ belongsTo cluster (machineSetMeta ms)) /\
  (forall mp, In mp (machinePools d) <->
     featureMachinePool w = true /\
     In mp (storeMachinePools w) /\ belongsTo cluster (machinePoolMeta mp)) /\
  (forall m, In m (workerMachines d) <->
     In m (storeMachines w) /\ belongsTo cluster (machineMeta m) /\
     IsControlPlaneMachine h m = false) /\
  (forall m, In m (controlPlaneMachines d) <->
     In m (storeMachines w) /\ belongsTo cluster (machineMeta m) /\
     IsControlPlaneMachine h m = true /\
     ControlPlaneRef (clusterSpec cluster) = None).
Proof.
  intros Hl. apply listDescendants_ok in Hl. destruct Hl as [_ [_ ->]]. cbn.
  split; [intro; apply selected_In|].
  split; [intro; apply selected_In|].
  split.
  { intro mp. destruct (featureMachinePool w).
    - rewrite selected_In. tauto.
    - simpl. split; [tauto | intros [? _]; discriminate]. }
  split.
  { intro m. rewrite filter_In, selected_In, negb_true_iff. tauto. }
  intro m. destruct (ControlPlaneRef (clusterSpec cluster)).
  - simpl. split; [tauto | intros [_ [_ [_ ?]]]; discriminate].
  - rewrite filter_In, selected_In. tauto.
Qed.

(** X2.  The calls of [listDescendants] and its failure: it lists
    MachineDeployments, MachineSets, MachinePools (only with the feature
    enabled) and Machines in this order and stops at the first listing
    that fails; it returns an error exactly then, and the error wraps the
    one of that listing.  It leaves the Cluster as it is. *)
Theorem listDescendants_calls (w : World) (cluster c : Cluster) :
  let '((_, err), c', tr) := listDescendants h w cluster c in
  let '(ks, failure) := listedUntilFailure w (consultedKinds w) in
  c' = c /\
  tr = map (fun k => EvList k (Namespace (clusterMeta cluster)) (Name (clusterMeta cluster))) ks /\
  match failure with
  | None => err = None
  | Some e => exists msg, err = Some (Wrapf e msg) /\ Cause (Wrapf e msg) = Cause e
  end.
Proof.
  unfold listDescendants, consultedKinds, clientList, bind, emit, ret.
  destruct (featureMachinePool w); simpl;
    destruct (listErr w KMachineDeployment); simpl;
    try (repeat split; eexists; split; reflexivity);
    destruct (listErr w KMachineSet); simpl;
    try (repeat split; eexists; split; reflexivity);
    try (destruct (listErr w KMachinePool); simpl;
         try (repeat split; eexists; split; reflexivity));
    destruct (listErr w KMachine); simpl;
    try (repeat split; eexists; split; reflexivity);
    rewrite splitMachineList_filter; simpl; repeat split.
Qed.

(** X3.  When listing the descendants fails, [reconcileDelete] returns that
    error with an empty result: it sends no delete call, resolves no
    external reference, and leaves the Cluster, finalizers included, as it
    is. *)
Theorem reconcileDelete_list_failure (w : World) (c c1 : Cluster) (d : clusterDescendants)
    (e : error) (t : list Event) :
  listDescendants h w c c = ((d, Some e), c1, t) ->
  reconcileDelete h w c = ((emptyResult, Some e), c, t) /\
  Forall (fun ev => match ev with EvList _ _ _ => True | _ => False end) t.
Proof.
  intros Hl.
  pose proof (deleteDescendants_spec h w c c) as Hd. rewrite Hl in Hd.
  rewrite reconcileDelete_blocks, Hd.
  split; [reflexivity|]. now apply listDescendants_err in Hl.
Qed.

(** *** The delete calls and their failures *)

Lemma deleteChildren_causes (w : World) (cluster : Cluster) (children : list Object) :
  forall errs c,
    exists errs',
      deleteChildren w cluster children errs c =
      (errs ++ errs', c,
       map EvDelete (filter (fun o => IsZero (DeletionTimestamp (Accessor o))) children)) /\
      map Cause errs' =
      failedCauses w (filter (fun o => IsZero (DeletionTimestamp (Accessor o))) children).
Proof.
  induction children as [|o children IH]; intros errs c; simpl.
  - exists []. unfold ret. now rewrite app_nil_r.
  - destruct (IsZero (DeletionTimestamp (Accessor o))) eqn:Ez; simpl.
    + unfold bind, clientDelete, emit, ret. simpl.
      destruct (deleteErr w o) as [e|] eqn:Ed.
      * match goal with
        | |- context [deleteChildren w cluster children (errs ++ [?x]) c] =>
            destruct (IH (errs ++ [x]) c) as [errs' [E Hc]]; exists (x :: errs')
        end.
        rewrite E, <- app_assoc. simpl. split; [reflexivity|]. now rewrite Hc.
      * destruct (IH errs c) as [errs' [E Hc]]. exists errs'.
        rewrite E. split; [reflexivity | exact Hc].
    + destruct (IH errs c) as [errs' [E Hc]]. exists errs'. now split.
Qed.

(** The first part of [reconcileDelete] once the descendants are listed,
    with the causes of the errors it collects. *)
Lemma deleteDescendants_causes (w : World) (c c0 : Cluster) (d : clusterDescendants)
    (t0 : list Event) :
  listDescendants h w c c = ((d, None), c0, t0) ->
  exists errs,
    deleteDescendants h w c c =
    (match errs with
     | [] => if (0 <? length_ d)%nat
             then Some (requeueAfter deleteRequeueAfter, None)
             else None
     | _ => Some (emptyResult, Some (Aggregate errs))
     end,
     c,
     listEvents w c ++ map EvDelete (filter (toDelete h c) (inDeletionOrder w d))) /\
    map Cause errs = failedCauses w (filter (toDelete h c) (inDeletionOrder w d)).
Proof.
  intros El. unfold deleteDescendants, bind. rewrite El.
  apply listDescendants_ok in El. destruct El as [-> [-> _]].
  rewrite filterOwnedDescendants_filter. cbn beta iota.
  set (children := filter (fun o => IsOwnedByObject h (Accessor o) c) (inDeletionOrder w d)).
  assert ((if (0 <? List.length children)%nat
           then deleteChildren w c children []
           else ret []) = deleteChildren w c children []) as ->.
  { destruct children; reflexivity. }
  destruct (deleteChildren_causes w c children [] c) as [errs [E Hc]].
  exists errs. rewrite E. cbn [app].
  unfold children in *. rewrite filter_filter_andb in *. fold (toDelete h c) in *.
  split; [|exact Hc].
  destruct errs as [|e errs].
  - simpl. destruct (0 <? length_ d)%nat; unfold ret; now rewrite app_nil_r.
  - change (0 <? List.length (e :: errs))%nat with true. cbv beta iota.
    unfold ret, NewAggregate. rewrite dropNil_map_Some. now rewrite app_nil_r.
Qed.

Lemma failedCauses_nil (w : World) (objs : list Object) :
  failedCauses w objs = [] <-> forall o, In o objs -> deleteErr w o = None.
Proof.
  unfold failedCauses. induction objs as [|o objs IH]; simpl.
  - split; [intros _ o [] | reflexivity].
  - destruct (deleteErr w o) as [e|] eqn:E; simpl.
    + split; [discriminate|]. intros Hall.
      specialize (Hall o (or_introl eq_refl)). congruence.
    + rewrite IH. split.
      * intros Hall o' [<-|Ho']; auto.
      * intros Hall o' Ho'. apply Hall. now right.
Qed.

(** X4.  When a delete call on a child fails, [reconcileDelete] still sends
    the delete call to every owned child that is not being deleted, then
    returns an empty result with the aggregate of the failures: one error
    per failed call, in the order of the calls, each with the cause of the
    failure it wraps.  It resolves no external reference and leaves the
    Cluster as it is. *)
Theorem reconcileDelete_delete_failure (w : World) (c c0 : Cluster) (d : clusterDescendants)
    (t0 : list Event) (o : Object) :
  listDescendants h w c c = ((d, None), c0, t0) ->
  In o (filter (toDelete h c) (inDeletionOrder w d)) ->
  deleteErr w o <> None ->
  exists errs,
    reconcileDelete h w c =
    ((emptyResult, Some (Aggregate errs)), c,
     listEvents w c ++ map EvDelete (filter (toDelete h c) (inDeletionOrder w d))) /\
    map Cause errs = failedCauses w (filter (toDelete h c) (inDeletionOrder w d)) /\
    errs <> [].
Proof.
  intros El Hin Herr.
  destruct (@deleteDescendants_causes w c c0 d t0 El) as [errs [Hd Hc]].
  assert (errs <> []) as Hne.
  { intros ->. simpl in Hc. symmetry in Hc.
    apply failedCauses_nil with (o := o) in Hc; [contradiction | exact Hin]. }
  exists errs. rewrite reconcileDelete_blocks, Hd.
  destruct errs as [|e errs]; [contradiction|]. now repeat split.
Qed.

(** X5.  When the descendants are listed, no delete call fails and [length]
    counts at least one descendant, [reconcileDelete] asks to be run again
    after five seconds and returns no error; its calls are the listings and
    the delete calls on the owned children, no external reference is
    resolved, and the Cluster, finalizers included, is left as it is. *)
Theorem reconcileDelete_requeue (w : World) (c c0 : Cluster) (d : clusterDescendants)
    (t0 : list Event) :
  listDescendants h w c c = ((d, None), c0, t0) ->
  (forall o, In o (filter (toDelete h c) (inDeletionOrder w d)) -> deleteErr w o = None) ->
  (0 < length_ d)%nat ->
  reconcileDelete h w c =
  (({| Requeue := false; RequeueAfter := 5 * Second |}, None), c,
   listEvents w c ++ map EvDelete (filter (toDelete h c) (inDeletionOrder w d))).
Proof.
  intros El Hok Hlen.
  destruct (@deleteDescendants_causes w c c0 d t0 El) as [errs [Hd Hc]].
  apply failedCauses_nil in Hok. rewrite Hok in Hc.
  destruct errs; [|discriminate].
  rewrite reconcileDelete_blocks, Hd.
  apply Nat.ltb_lt in Hlen. rewrite Hlen. reflexivity.
Qed.

(** X6.  The children [filterOwnedDescendants] returns are descendants the
    cluster owns, and it returns no error.  Without the MachinePool feature
    there are at most as many children as [length] counts, so that the
    number of indirect descendants [reconcileDelete] reports is not
    negative; with the feature the MachinePools come on top. *)
Theorem filterOwnedDescendants_bound (w : World) (d : clusterDescendants) (cluster : Cluster) :
  let '(children, err) := filterOwnedDescendants h w d cluster in
  err = None /\
  (forall o, In o children <->
     In o (inDeletionOrder w d) /\ IsOwnedByObject h (Accessor o) cluster = true) /\
  (List.length children <=
   length_ d + (if featureMachinePool w then List.length (machinePools d) else 0))%nat.
Proof.
  rewrite filterOwnedDescendants_filter.
  split; [reflexivity|]. split; [intro o; apply filter_In|].
  etransitivity; [apply filter_length_le|].
  unfold inDeletionOrder, length_.
  destruct (featureMachinePool w); rewrite !length_app, !length_map; simpl; lia.
Qed.

(** *** What the deletion path touches, and in which order *)

Lemma deleteDescendants_no_ref_event (w : World) (c : Cluster) :
  forall e, In e (snd (deleteDescendants h w c c)) -> ~ isRefEvent e.
Proof.
  intros e Hin Href.
  pose proof (deleteDescendants_spec h w c c) as Hd.
  destruct (listDescendants h w c c) as [[[d [err|]] c1] t] eqn:El.
  - rewrite Hd in Hin. cbn [snd] in Hin.
    apply listDescendants_err in El. destruct El as [_ El].
    rewrite Forall_forall in El. specialize (El e Hin).
    destruct e; try contradiction.
  - destruct Hd as [errs [Hd _]]. rewrite Hd in Hin. cbn [snd] in Hin.
    apply listDescendants_ok in El. destruct El as [_ [-> _]].
    apply in_app_or in Hin. destruct Hin as [Hin|Hin].
    + unfold listEvents in Hin. destruct (featureMachinePool w); simpl in Hin;
        repeat (destruct Hin as [<-|Hin]; [contradiction|]); destruct Hin.
    + apply in_map_iff in Hin. destruct Hin as [o [<- Ho]].
      apply filter_In in Ho. destruct Ho as [Ho _].
      pose proof (inDeletionOrder_typed w d) as Ht. rewrite Forall_forall in Ht.
      specialize (Ht o Ho). destruct o; simpl in *; contradiction.
Qed.

Lemma refBlockOutcome_events (w : World) (cluster c : Cluster) (t : ConditionType)
    (ref : option ObjectReference) :
  let ns := Namespace (clusterMeta cluster) in
  forall e, In e (snd (refBlockOutcome w cluster c t ref)) ->
    exists r, ref = Some r /\
      (e = EvExternalGet r ns \/
       exists u, externalGet w r ns = inl u /\ e = EvDelete (OUnstructured u)).
Proof.
  cbv zeta. unfold refBlockOutcome. intros e.
  destruct ref as [r|]; [|intros []].
  destruct (externalGet w r (Namespace (clusterMeta cluster))) as [u|err] eqn:Eg.
  - intros [<-|[<-|[]]]; exists r; split; eauto.
  - destruct (IsNotFound (Some (Cause err))); intros [<-|[]]; exists r; split; auto.
Qed.

(** X7.  The order of the teardown: every external reference
    [reconcileDelete] resolves is the [ControlPlaneRef] or the
    [InfrastructureRef] of the Cluster, every provider object it deletes is
    the one such a reference resolves to, and it resolves or deletes
    through the [InfrastructureRef] only when the [ControlPlaneRef] is
    absent (nil, or resolving to NotFound). *)
Theorem reconcileDelete_control_plane_first (w : World) (c : Cluster) :
  let ns := Namespace (clusterMeta c) in
  let '(_, _, tr) := reconcileDelete h w c in
  forall e, In e tr -> isRefEvent e ->
    (exists r, ControlPlaneRef (clusterSpec c) = Some r /\
       (e = EvExternalGet r ns \/
        exists u, externalGet w r ns = inl u /\ e = EvDelete (OUnstructured u))) \/
    (refAbsent w ns (ControlPlaneRef (clusterSpec c)) = true /\
     exists r, InfrastructureRef (clusterSpec c) = Some r /\
       (e = EvExternalGet r ns \/
        exists u, externalGet w r ns = inl u /\ e = EvDelete (OUnstructured u))).
Proof.
  cbv zeta. rewrite reconcileDelete_blocks.
  pose proof (deleteDescendants_no_ref_event w c) as H0.
  destruct (deleteDescendants h w c c) as [[r0 c0] t0]. cbn [snd] in H0.
  destruct r0 as [out|].
  { intros e Hin Href. exfalso. exact (H0 e Hin Href). }
  pose proof (refBlockOutcome_events w c c0 ControlPlaneReadyCondition
                (ControlPlaneRef (clusterSpec c))) as E1.
  pose proof (refBlockOutcome_falls_through w c c0 ControlPlaneReadyCondition
                (ControlPlaneRef (clusterSpec c))) as T1.
  cbv zeta in E1.
  destruct (refBlockOutcome w c c0 ControlPlaneReadyCondition
              (ControlPlaneRef (clusterSpec c))) as [[r1 c1] t1].
  cbn [fst snd] in E1, T1.
  destruct r1 as [out|].
  { intros e Hin Href. apply in_app_or in Hin. destruct Hin as [Hin|Hin].
    - exfalso. exact (H0 e Hin Href).
    - left. now apply E1. }
  assert (refAbsent w (Namespace (clusterMeta c)) (ControlPlaneRef (clusterSpec c)) = true)
    as Habs by now apply T1.
  pose proof (refBlockOutcome_events w c c1 InfrastructureReadyCondition
                (InfrastructureRef (clusterSpec c))) as E2.
  cbv zeta in E2.
  destruct (refBlockOutcome w c c1 InfrastructureReadyCondition
              (InfrastructureRef (clusterSpec c))) as [[r2 c2] t2].
  cbn [snd] in E2.
  assert (forall e, In e (t0 ++ t1 ++ t2) -> isRefEvent e ->
            (exists r, ControlPlaneRef (clusterSpec c) = Some r /\
               (e = EvExternalGet r (Namespace (clusterMeta c)) \/
                exists u, externalGet w r (Namespace (clusterMeta c)) = inl u /\
                          e = EvDelete (OUnstructured u))) \/
            (refAbsent w (Namespace (clusterMeta c)) (ControlPlaneRef (clusterSpec c)) = true /\
             exists r, InfrastructureRef (clusterSpec c) = Some r /\
               (e = EvExternalGet r (Namespace (clusterMeta c)) \/
                exists u, externalGet w r (Namespace (clusterMeta c)) = inl u /\
                          e = EvDelete (OUnstructured u)))) as Hall.
  { intros e Hin Href. apply in_app_or in Hin. destruct Hin as [Hin|Hin].
    { exfalso. exact (H0 e Hin Href). }
    apply in_app_or in Hin. destruct Hin as [Hin|Hin].
    - left. now apply E1.
    - right. split; [exact Habs|]. now apply E2. }
  destruct r2 as [out|]; [exact Hall|].
  intros e Hin Href. apply Hall; [|exact Href].
  rewrite !app_assoc in Hin. apply in_app_or in Hin. destruct Hin as [Hin|Hin].
  - now rewrite <- !app_assoc in Hin.
  - destruct Hin as [<-|[]]. contradiction.
Qed.

Lemma refBlockOutcome_status (w : World) (cluster c : Cluster) (t : ConditionType)
    (ref : option ObjectReference) :
  let c' := snd (fst (refBlockOutcome w cluster c t ref)) in
  Phase (clusterStatus c') = Phase (clusterStatus c) /\
  ControlPlaneInitialized (clusterStatus c') = ControlPlaneInitialized (clusterStatus c) /\
  ObservedGeneration (clusterStatus c') = ObservedGeneration (clusterStatus c).
Proof.
  cbv zeta. unfold refBlockOutcome.
  destruct ref as [r|]; [|now repeat split].
  destruct (externalGet w r (Namespace (clusterMeta cluster))) as [u|err];
    [now repeat split|].
  destruct (IsNotFound (Some (Cause err))); now repeat split.
Qed.

(** X8.  Of the Cluster, [reconcileDelete] changes nothing but the
    finalizers and the control-plane-readiness and
    infrastructure-readiness conditions: name, namespace, labels, owner
    references, deletion timestamp, spec, phase, the
    control-plane-initialized flag, the observed generation and every
    other condition are as before. *)
Theorem reconcileDelete_frame (w : World) (c : Cluster) :
  let '(_, c', _) := reconcileDelete h w c in
  clusterSpec c' = clusterSpec c /\
  Name (clusterMeta c') = Name (clusterMeta c) /\
  Namespace (clusterMeta c') = Namespace (clusterMeta c) /\
  Labels (clusterMeta c') = Labels (clusterMeta c) /\
  OwnerReferences (clusterMeta c') = OwnerReferences (clusterMeta c) /\
  DeletionTimestamp (clusterMeta c') = DeletionTimestamp (clusterMeta c) /\
  Phase (clusterStatus c') = Phase (clusterStatus c) /\
  ControlPlaneInitialized (clusterStatus c') = ControlPlaneInitialized (clusterStatus c) /\
  ObservedGeneration (clusterStatus c') = ObservedGeneration (clusterStatus c) /\
  (forall t, t <> ControlPlaneReadyCondition -> t <> InfrastructureReadyCondition ->
     GetCondition (Conditions (clusterStatus c')) t =
     GetCondition (Conditions (clusterStatus c)) t).
Proof.
  rewrite reconcileDelete_blocks.
  pose proof (deleteDescendants_frame h w c) as F0.
  destruct (deleteDescendants h w c c) as [[r0 c0] t0]. destruct F0 as [-> _].
  destruct r0 as [out|]; [now repeat split|].
  pose proof (refBlockOutcome_frame w c c ControlPlaneReadyCondition
                (ControlPlaneRef (clusterSpec c))) as F1.
  pose proof (refBlockOutcome_status w c c ControlPlaneReadyCondition
                (ControlPlaneRef (clusterSpec c))) as S1.
  cbv zeta in S1.
  destruct (refBlockOutcome w c c ControlPlaneReadyCondition
              (ControlPlaneRef (clusterSpec c))) as [[r1 c1] t1].
  cbn [fst snd] in S1.
  destruct F1 as [M1 [P1 [G1 _]]]. destruct S1 as [S1a [S1b S1c]].
  destruct r1 as [out|].
  { rewrite M1, P1, S1a, S1b, S1c. repeat split.
    intros t Hcp _. apply G1. congruence. }
  pose proof (refBlockOutcome_frame w c c1 InfrastructureReadyCondition
                (InfrastructureRef (clusterSpec c))) as F2.
  pose proof (refBlockOutcome_status w c c1 InfrastructureReadyCondition
                (InfrastructureRef (clusterSpec c))) as S2.
  cbv zeta in S2.
  destruct (refBlockOutcome w c c1 InfrastructureReadyCondition
              (InfrastructureRef (clusterSpec c))) as [[r2 c2] t2].
  cbn [fst snd] in S2.
  destruct F2 as [M2 [P2 [G2 _]]]. destruct S2 as [S2a [S2b S2c]].
  assert (forall t, t <> ControlPlaneReadyCondition -> t <> InfrastructureReadyCondition ->
            GetCondition (Conditions (clusterStatus c2)) t =
            GetCondition (Conditions (clusterStatus c)) t) as G.
  { intros t Hcp Hinfra. rewrite G2 by congruence. apply G1. congruence. }
  destruct r2 as [out|].
  - rewrite M2, M1, P2, P1, S2a, S2b, S2c, S1a, S1b, S1c. now repeat split.
  - unfold RemoveFinalizer, setFinalizers. cbn.
    rewrite M2, M1, P2, P1, S2a, S2b, S2c, S1a, S1b, S1c. now repeat split.
Qed.

(** *** The names of the descendants *)

Lemma Join_cons_nonempty (e : string) (rest : list string) (sep : string) :
  e <> "" -> Join (e :: rest) sep <> "".
Proof.
  intros He. destruct e as [|a e]; [contradiction|].
  destruct rest; simpl; discriminate.
Qed.

Lemma length_map_pos {A B} (f : A -> B) (l : list A) :
  (0 <? List.length (map f l))%nat = negb (match l with [] => true | _ => false end).
Proof. destruct l; reflexivity. Qed.

(** X9.  [descendantNames] is the empty string exactly when there is no
    control-plane Machine, no MachineDeployment, no MachineSet, no worker
    Machine and, with the MachinePool feature enabled, no MachinePool.
    Hence, with the feature disabled, it is empty exactly when [length]
    is zero; with the feature enabled it names MachinePools that [length]
    does not count. *)
Theorem descendantNames_empty (w : World) (d : clusterDescendants) :
  (descendantNames w d = "" <->
   controlPlaneMachines d = [] /\ machineDeployments d = [] /\ machineSets d = [] /\
   workerMachines d = [] /\ (featureMachinePool w = true -> machinePools d = [])) /\
  (featureMachinePool w = false -> (descendantNames w d = "" <-> length_ d = 0%nat)) /\
  (featureMachinePool w = true -> machinePools d <> [] -> descendantNames w d <> "").
Proof.
  assert (descendantNames w d = "" <->
          controlPlaneMachines d = [] /\ machineDeployments d = [] /\ machineSets d = [] /\
          workerMachines d = [] /\ (featureMachinePool w = true -> machinePools d = []))
    as Hmain.
  { unfold descendantNames. cbv zeta. rewrite !length_map_pos.
    destruct (controlPlaneMachines d) as [|cp cps];
      destruct (machineDeployments d) as [|md mds];
      destruct (machineSets d) as [|ms mss];
      destruct (workerMachines d) as [|wm wms];
      destruct (featureMachinePool w);
      try rewrite length_map_pos;
      try destruct (machinePools d) as [|mp mps];
      cbn [negb app];
      (split;
       [ intros E;
         try (exfalso; revert E; apply Join_cons_nonempty; discriminate);
         repeat split; try reflexivity; intros; try reflexivity; try discriminate
       | intros [H1 [H2 [H3 [H4 H5]]]];
         try discriminate; try (specialize (H5 eq_refl); discriminate);
         reflexivity ]). }
  split; [exact Hmain|]. split.
  - intros Hgate. rewrite Hmain, Hgate. unfold length_.
    split.
    + intros [-> [-> [-> [-> _]]]]. reflexivity.
    + intros Hlen.
      destruct (controlPlaneMachines d); [|simpl in Hlen; lia].
      destruct (machineDeployments d); [|simpl in Hlen; lia].
      destruct (machineSets d); [|simpl in Hlen; lia].
      destruct (workerMachines d); [|simpl in Hlen; lia].
      repeat split. discriminate.
  - intros Hgate Hne E. apply Hmain in E. destruct E as [_ [_ [_ [_ E]]]].
    apply Hne. now apply E.
Qed.

(** *** The normal path *)

(** X10.  [reconcile] returns no error exactly when none of the four phase
    steps returns one.  When the first step fails, the merged result is the
    empty result, whatever the later steps ask for. *)
Theorem reconcile_error (w : World) (c : Cluster) :
  let '(o1, c1, _) := reconcileInfrastructure h w c in
  let '(o2, c2, _) := reconcileControlPlane h w c1 in
  let '(o3, c3, _) := reconcileKubeconfig h w c2 in
  let '(o4, _, _) := reconcileControlPlaneInitialized h w c3 in
  let '((res, err), _, _) := reconcile h w c in
  (err = None <-> snd o1 = None /\ snd o2 = None /\ snd o3 = None /\ snd o4 = None) /\
  (snd o1 <> None -> res = emptyResult).
Proof.
  unfold reconcile. unfold bind at 1. rewrite runPhases_runAll.
  simpl runAll. unfold bind, ret.
  destruct (reconcileInfrastructure h w c) as [[[r1 e1] c1] t1].
  destruct (reconcileControlPlane h w c1) as [[[r2 e2] c2] t2].
  destruct (reconcileKubeconfig h w c2) as [[[r3 e3] c3] t3].
  destruct (reconcileControlPlaneInitialized h w c3) as [[[r4 e4] c4] t4].
  cbn [fst snd app map].
  rewrite (NewAggregate_dropNil [e1; e2; e3; e4]).
  split.
  - unfold NewAggregate.
    destruct e1, e2, e3, e4; simpl; split; try discriminate;
      try (intros [? [? [? ?]]]; discriminate); auto.
  - destruct e1; [reflexivity | congruence].
Qed.

(** X11.  The control-plane-initialized step is idempotent: run again on the
    Cluster it returned, against the same store, it changes nothing; and
    once the flag is set the second run makes no call. *)
Theorem reconcileControlPlaneInitialized_idempotent (w : World) (c : Cluster) :
  let '(_, c1, _) := reconcileControlPlaneInitialized h w c in
  let '(out2, c2, t2) := reconcileControlPlaneInitialized h w c1 in
  c2 = c1 /\
  (ControlPlaneInitialized (clusterStatus c1) = true ->
   t2 = [] /\ out2 = (emptyResult, None)).
Proof.
  unfold reconcileControlPlaneInitialized, bind, getCl, emit, ret.
  destruct (ControlPlaneRef (clusterSpec c)) as [ref|] eqn:Eref; simpl.
  { rewrite Eref. simpl. now split. }
  destruct (ControlPlaneInitialized (clusterStatus c)) eqn:Einit; simpl.
  { rewrite Eref, Einit. simpl. now split. }
  destruct (getActiveMachinesInCluster w (Namespace (clusterMeta c)) (Name (clusterMeta c)))
    as [machines|e] eqn:Eget; simpl.
  2:{ rewrite Eref, Einit, Eget. simpl. split; [reflexivity | discriminate]. }
  rewrite scanMachines_existsb. simpl.
  destruct (existsb (hasNode h) machines) eqn:Ex; simpl.
  - rewrite Eref. simpl. now split.
  - rewrite Eref, Einit, Eget. simpl. rewrite scanMachines_existsb, Ex. simpl.
    split; [reflexivity | discriminate].
Qed.

(** *** The watch mapper *)

(** X12.  Whatever object the mapper receives, every request it returns is
    for a control-plane Machine with a node reference, and is the key of
    the Cluster found under the namespace of the Machine and the cluster
    name of its spec, that Cluster not being control-plane-initialized.  In
    particular it returns nothing for an object that is not a Machine. *)
Theorem controlPlaneMachineToCluster_sound (w : World) (o : Object) (r : NamespacedName) :
  In r (controlPlaneMachineToCluster h w o) ->
  exists m cluster,
    o = OMachine m /\
    IsControlPlaneMachine h m = true /\
    NodeRef (machineStatus m) <> None /\
    GetClusterByName w (Namespace (machineMeta m)) (ClusterName (machineSpec m))
      = inl cluster /\
    ControlPlaneInitialized (clusterStatus cluster) = false /\
    r = ObjectKey cluster.
Proof.
  unfold controlPlaneMachineToCluster.
  destruct o as [| |m| | |]; try (intros []).
  destruct (IsControlPlaneMachine h m) eqn:Ecp; simpl; [|intros []].
  destruct (NodeRef (machineStatus m)) as [n|] eqn:En; simpl; [|intros []].
  destruct (GetClusterByName w (Namespace (machineMeta m)) (ClusterName (machineSpec m)))
    as [cl|e] eqn:Eg; [|intros []].
  destruct (ControlPlaneInitialized (clusterStatus cl)) eqn:Ei; [intros []|].
  intros [<-|[]]. exists m, cl. rewrite En. repeat split; auto. discriminate.
Qed.

(** *** The entry point *)

Lemma Finalizer_eqb_refl (f : Finalizer) : Finalizer_eqb f f = true.
Proof. destruct f; simpl; auto using String.eqb_refl. Qed.

(** X13.  The passes [Reconcile] ends early.  A Cluster that is not found
    is no error; any other error of the fetch and the error of the patch
    helper are returned as they are; a paused Cluster is skipped without
    error.  In all these cases the result is empty, no call is made and
    the Cluster, if fetched, is left as it is.  In every other case the
    last call of the pass is a patch. *)
Theorem Reconcile_early_exits (w : World) (req : NamespacedName) :
  let '((res, err), oc, tr) := Reconcile h w req in
  match getCluster w req with
  | inr e =>
      res = emptyResult /\ oc = None /\ tr = [] /\
      (IsNotFound (Some e) = true -> err = None) /\
      (IsNotFound (Some e) = false -> err = Some e)
  | inl c =>
      if IsPaused h c c then res = emptyResult /\ err = None /\ oc = Some c /\ tr = []
      else
        match newHelperErr w c with
        | Some e => res = emptyResult /\ err = Some e /\ oc = Some c /\ tr = []
        | None => exists pre opts, tr = pre ++ [EvPatch opts]
        end
  end.
Proof.
  unfold Reconcile.
  destruct (getCluster w req) as [c|e].
  - destruct (IsPaused h c c); [now repeat split|].
    destruct (newHelperErr w c) as [e|]; [now repeat split|].
    rewrite reconcileWithDefer_outcome.
    destruct (reconcileBody h w c) as [[[res reterr] c0] tr0].
    exists (tr0 ++ [EvReconcilePhase]), (patchOptions reterr).
    now rewrite <- app_assoc.
  - destruct (IsNotFound (Some e)); repeat split; congruence.
Qed.



(** *** The owner-reference matcher of the tests *)

Lemma matchOwnerRefs_exists (matcher : refKindMatcher) (ownerRefs : list OwnerReference) :
  matchOwnerRefs matcher ownerRefs = true <->
  exists ref, In ref ownerRefs /\ orKind ref = kind matcher.
Proof.
  induction ownerRefs as [|ref rest IH]; simpl.
  - split; [discriminate | intros [? [[] _]]].
  - destruct (String.eqb (orKind ref) (kind matcher)) eqn:E.
    + apply String.eqb_eq in E. split; [intros _; exists ref; auto | reflexivity].
    + apply String.eqb_neq in E. rewrite IH. split.
      * intros [r [Hin Hk]]. exists r. auto.
      * intros [r [[<-|Hin] Hk]]; [contradiction | exists r; auto].
Qed.

(** X15.  The matcher [ContainRefOfKind]: on a slice of owner references it
    succeeds, without error, exactly when one of them has the given kind
    (never on an empty slice); on anything else it fails with an error. *)
Theorem Match_contains_kind (k : string) (actual : Actual) :
  let '(success, err) := Match (ContainRefOfKind k) actual in
  match actual with
  | ActualOwnerReferences ownerRefs =>
      err = None /\
      (success = true <-> exists ref, In ref ownerRefs /\ orKind ref = k)
  | ActualOther => success = false /\ err <> None
  end.
Proof.
  destruct actual as [ownerRefs|]; simpl.
  - split; [reflexivity|]. apply (matchOwnerRefs_exists (ContainRefOfKind k)).
  - split; [reflexivity | discriminate].
Qed.

End Behaviour.

(* ------------------------------------------------------------------ *)
(** ** The controller on concrete objects *)

(** The phases merge to the lowest non-zero requeue-after seen before the
    first failure: 10 s, then 3 s, give 3 s; a failing step hides the hints
    that follow it. *)
Example reconcile_merges_lowest :
  fst (fst (reconcile (Ex.helpersWith (Ex.after 10) (Ex.after 3) (Ex.after 0))
              (Ex.emptyWorld Ex.live) Ex.live))
  = ({| Requeue := false; RequeueAfter := 3 * Second |}, None).
Proof. reflexivity. Qed.

Example reconcile_discards_after_error :
  fst (fst (reconcile (Ex.helpersWith (Ex.after 10) (Ex.failing 1) (Ex.after 3))
              (Ex.emptyWorld Ex.live) Ex.live))
  = ({| Requeue := false; RequeueAfter := 10 * Second |},
     Some (Aggregate [Ex.conflict])).
Proof. reflexivity. Qed.

(** With descendants of the kinds that [length] counts, the pass asks to
    come back after five seconds and keeps the finalizer. *)
Example reconcileDelete_requeues_with_machines :
  let w := Ex.world false [] [] [] [Ex.cpMachine; Ex.workerMachine] Ex.deleting in
  let '((res, err), c', tr) := reconcileDelete Ex.helpers w Ex.deleting in
  res = {| Requeue := false; RequeueAfter := 5000000000 |} /\ err = None /\
  c' = Ex.deleting /\
  filter isDescendantDelete tr =
    [EvDelete (OMachine Ex.workerMachine); EvDelete (OMachine Ex.cpMachine)].
Proof. vm_compute. repeat split. Qed.

(** C1.  The code at the input where it departs from the claim: the
    MachinePool feature is enabled and the only descendant of the Cluster is
    a MachinePool it owns.  [listDescendants] returns that MachinePool, and
    [length] counts no descendant; the delete call on the MachinePool
    succeeds; the pass then asks for no requeue, goes on past the external
    references and removes the finalizer. *)
Theorem reconcileDelete_machine_pool_not_counted :
  let '((d, lerr), _, _) := listDescendants Ex.helpers Ex.poolWorld Ex.deleting Ex.deleting in
  let '((res, err), c', tr) := reconcileDelete Ex.helpers Ex.poolWorld Ex.deleting in
  featureMachinePool Ex.poolWorld = true /\
  lerr = None /\
  machinePools d = [Ex.pool "mp-1"] /\
  length_ d = 0%nat /\
  filter isDescendantDelete tr = [EvDelete (OMachinePool (Ex.pool "mp-1"))] /\
  res = emptyResult /\
  RequeueAfter res <> deleteRequeueAfter /\
  err = None /\
  In (EvRemoveFinalizer ClusterFinalizer) tr /\
  ContainsFinalizer Ex.deleting ClusterFinalizer = true /\
  ContainsFinalizer c' ClusterFinalizer = false.
Proof.
  vm_compute. repeat split; try discriminate.
  do 5 right. now left.
Qed.

(** C3, as stated, fails: this Cluster has a non-zero deletion timestamp and
    a finalizer of another controller only; [Reconcile] adds the Cluster
    finalizer to it. *)
Lemma Reconcile_adds_finalizer_while_deleting :
  ~ (forall (h : Helpers) (w : World) (req : NamespacedName) (c : Cluster),
       getCluster w req = inl c ->
       IsZero (DeletionTimestamp (clusterMeta c)) = false ->
       let '(_, oc, tr) := Reconcile h w req in
       countEvents isAddFinalizer tr = 0%nat /\
       forall c', oc = Some c' ->
         forall f, In f (Finalizers (clusterMeta c')) -> In f (Finalizers (clusterMeta c))).
Proof.
  intros H.
  specialize (H Ex.helpers (Ex.emptyWorld Ex.deletingNoFinalizer) Ex.key
                Ex.deletingNoFinalizer eq_refl eq_refl).
  vm_compute in H. destruct H as [H _]. discriminate.
Qed.

(** *** The theorems at concrete inputs *)

Lemma reconcileDelete_deletion_order_witness :
  listDescendants Ex.helpers Ex.fullWorld Ex.deleting Ex.deleting
  = (({| machineDeployments := [Ex.deployment "md-1"];
         machineSets := [Ex.machineSet "ms-1"];
         controlPlaneMachines := [Ex.cpMachine];
         workerMachines := [Ex.workerMachine];
         machinePools := [Ex.pool "mp-1"] |}, None),
     Ex.deleting,
     [EvList KMachineDeployment "default" "c"; EvList KMachineSet "default" "c";
      EvList KMachinePool "default" "c"; EvList KMachine "default" "c"]) /\
  filter isDescendantDelete (snd (reconcileDelete Ex.helpers Ex.fullWorld Ex.deleting))
  = map EvDelete
      [OMachinePool (Ex.pool "mp-1"); OMachineDeployment (Ex.deployment "md-1");
       OMachineSet (Ex.machineSet "ms-1"); OMachine Ex.workerMachine;
       OMachine Ex.cpMachine].
Proof.
  split; [reflexivity|].
  pose proof (@reconcileDelete_deletion_order Ex.helpers Ex.fullWorld Ex.deleting
                _ _ _ eq_refl) as H.
  destruct (reconcileDelete Ex.helpers Ex.fullWorld Ex.deleting) as [[out c'] tr].
  exact (proj1 H).
Defined.

Lemma reconcileDelete_external_refs_witness :
  deleteDescendants Ex.helpers Ex.refWorld Ex.deletingWithRefs Ex.deletingWithRefs
  = (None, Ex.deletingWithRefs, Ex.listTrace) /\
  exists cond,
    GetCondition
      (Conditions (clusterStatus
         (snd (fst (reconcileDelete Ex.helpers Ex.refWorld Ex.deletingWithRefs)))))
      ControlPlaneReadyCondition = Some cond /\
    isFalseWith DeletedReason cond.
Proof.
  split; [reflexivity|].
  pose proof (@reconcileDelete_external_refs Ex.helpers Ex.refWorld Ex.deletingWithRefs
                Ex.listTrace eq_refl) as H.
  cbv zeta in H.
  destruct (reconcileDelete Ex.helpers Ex.refWorld Ex.deletingWithRefs)
    as [[[res err] c'] tr].
  exact (proj1 (proj1 H Ex.cpRef eq_refl)).
Defined.

Lemma Reconcile_deferred_patch_witness :
  getCluster (Ex.emptyWorld Ex.live) Ex.key = inl Ex.live /\
  IsPaused Ex.helpers Ex.live Ex.live = false /\
  newHelperErr (Ex.emptyWorld Ex.live) Ex.live = None /\
  exists c' opts,
    snd (Reconcile Ex.helpers (Ex.emptyWorld Ex.live) Ex.key)
    = [EvGetActiveMachines "default" "c"; EvReconcilePhase; EvPatch opts] /\
    snd (fst (Reconcile Ex.helpers (Ex.emptyWorld Ex.live) Ex.key)) = Some c' /\
    In WithStatusObservedGeneration opts.
Proof.
  repeat (split; [reflexivity|]).
  pose proof (@Reconcile_deferred_patch Ex.helpers (Ex.emptyWorld Ex.live) Ex.key Ex.live
                eq_refl eq_refl eq_refl) as H.
  destruct (reconcileBody Ex.helpers (Ex.emptyWorld Ex.live) Ex.live)
    as [[[res0 reterr] c0] tr0] eqn:Eb.
  vm_compute in Eb. inversion Eb; subst.
  destruct H as [c' [opts [E [_ [Hgen _]]]]].
  exists c', opts. rewrite E. cbn [fst snd app].
  split; [reflexivity|]. split; [reflexivity|]. now apply Hgen.
Defined.

Lemma Reconcile_deleting_witness :
  getCluster (Ex.emptyWorld Ex.deleting) Ex.key = inl Ex.deleting /\
  IsPaused Ex.helpers Ex.deleting Ex.deleting = false /\
  newHelperErr (Ex.emptyWorld Ex.deleting) Ex.deleting = None /\
  IsZero (DeletionTimestamp (clusterMeta Ex.deleting)) = false /\
  countEvents isAddFinalizer (snd (Reconcile Ex.helpers (Ex.emptyWorld Ex.deleting) Ex.key))
  = 0%nat.
Proof.
  repeat (split; [reflexivity|]).
  pose proof (@Reconcile_deleting Ex.helpers (Ex.emptyWorld Ex.deleting) Ex.key Ex.deleting
                eq_refl eq_refl eq_refl eq_refl) as H.
  destruct (Reconcile Ex.helpers (Ex.emptyWorld Ex.deleting) Ex.key) as [[out oc] tr].
  exact (proj1 (proj2 H)).
Defined.

Lemma listDescendants_selection_witness :
  listDescendants Ex.helpers Ex.fullWorld Ex.deleting Ex.deleting
  = (({| machineDeployments := [Ex.deployment "md-1"];
         machineSets := [Ex.machineSet "ms-1"];
         controlPlaneMachines := [Ex.cpMachine];
         workerMachines := [Ex.workerMachine];
         machinePools := [Ex.pool "mp-1"] |}, None),
     Ex.deleting,
     [EvList KMachineDeployment "default" "c"; EvList KMachineSet "default" "c";
      EvList KMachinePool "default" "c"; EvList KMachine "default" "c"]) /\
  (forall m, In m [Ex.workerMachine] <->
     In m (storeMachines Ex.fullWorld) /\ belongsTo Ex.deleting (machineMeta m) /\
     IsControlPlaneMachine Ex.helpers m = false).
Proof.
  split; [reflexivity|].
  exact (proj1 (proj2 (proj2 (proj2
           (@listDescendants_selection Ex.helpers Ex.fullWorld Ex.deleting Ex.deleting
              _ _ _ eq_refl))))).
Defined.

Lemma reconcileDelete_list_failure_witness :
  listDescendants Ex.helpers Ex.listFailureWorld Ex.deleting Ex.deleting
  = (({| machineDeployments := [Ex.deployment "md-1"]; machineSets := [];
         controlPlaneMachines := []; workerMachines := []; machinePools := [] |},
      Some (Wrapf Ex.conflict
              (Msgf "failed to list MachineSets for cluster %s/%s" ["default"; "c"]))),
     Ex.deleting,
     [EvList KMachineDeployment "default" "c"; EvList KMachineSet "default" "c"]) /\
  reconcileDelete Ex.helpers Ex.listFailureWorld Ex.deleting
  = ((emptyResult,
      Some (Wrapf Ex.conflict
              (Msgf "failed to list MachineSets for cluster %s/%s" ["default"; "c"]))),
     Ex.deleting,
     [EvList KMachineDeployment "default" "c"; EvList KMachineSet "default" "c"]).
Proof.
  split; [reflexivity|].
  exact (proj1 (@reconcileDelete_list_failure Ex.helpers Ex.listFailureWorld Ex.deleting
                  _ _ _ _ eq_refl)).
Defined.

Lemma reconcileDelete_delete_failure_witness :
  In (OMachine Ex.cpMachine)
     (filter (toDelete Ex.helpers Ex.deleting)
        (inDeletionOrder Ex.deleteFailureWorld
           {| machineDeployments := [Ex.deployment "md-1"]; machineSets := [];
              controlPlaneMachines := [Ex.cpMachine];
              workerMachines := [Ex.workerMachine]; machinePools := [] |})) /\
  deleteErr Ex.deleteFailureWorld (OMachine Ex.cpMachine) <> None /\
  exists errs,
    fst (fst (reconcileDelete Ex.helpers Ex.deleteFailureWorld Ex.deleting))
    = (emptyResult, Some (Aggregate errs)) /\
    map Cause errs = [Ex.conflict; Ex.conflict].
Proof.
  assert (In (OMachine Ex.cpMachine)
            (filter (toDelete Ex.helpers Ex.deleting)
               (inDeletionOrder Ex.deleteFailureWorld
                  {| machineDeployments := [Ex.deployment "md-1"]; machineSets := [];
                     controlPlaneMachines := [Ex.cpMachine];
                     workerMachines := [Ex.workerMachine]; machinePools := [] |}))) as Hin.
  { vm_compute. right. right. now left. }
  assert (deleteErr Ex.deleteFailureWorld (OMachine Ex.cpMachine) <> None) as Herr
    by discriminate.
  split; [exact Hin|]. split; [exact Herr|].
  destruct (@reconcileDelete_delete_failure Ex.helpers Ex.deleteFailureWorld Ex.deleting
              _ _ _ (OMachine Ex.cpMachine) eq_refl Hin Herr) as [errs [E [Hc _]]].
  exists errs. rewrite E. split; [reflexivity | exact Hc].
Defined.

Lemma reconcileDelete_requeue_witness :
  (0 < length_ {| machineDeployments := []; machineSets := [];
                  controlPlaneMachines := [Ex.cpMachine];
                  workerMachines := [Ex.workerMachine]; machinePools := [] |})%nat /\
  fst (reconcileDelete Ex.helpers Ex.machinesWorld Ex.deleting)
  = (({| Requeue := false; RequeueAfter := 5 * Second |}, None), Ex.deleting).
Proof.
  split; [vm_compute; lia|].
  rewrite (@reconcileDelete_requeue Ex.helpers Ex.machinesWorld Ex.deleting _ _ _ eq_refl).
  - reflexivity.
  - intros o _. reflexivity.
  - vm_compute. lia.
Defined.

Lemma controlPlaneMachineToCluster_sound_witness :
  In Ex.key
     (controlPlaneMachineToCluster Ex.helpers (Ex.emptyWorld Ex.live) (OMachine Ex.cpMachine)) /\
  exists m cluster,
    OMachine Ex.cpMachine = OMachine m /\
    IsControlPlaneMachine Ex.helpers m = true /\
    NodeRef (machineStatus m) <> None /\
    GetClusterByName (Ex.emptyWorld Ex.live) (Namespace (machineMeta m))
      (ClusterName (machineSpec m)) = inl cluster /\
    ControlPlaneInitialized (clusterStatus cluster) = false /\
    Ex.key = ObjectKey cluster.
Proof.
  assert (In Ex.key
            (controlPlaneMachineToCluster Ex.helpers (Ex.emptyWorld Ex.live)
               (OMachine Ex.cpMachine))) as Hin by (now left).
  split; [exact Hin|].
  exact (@controlPlaneMachineToCluster_sound Ex.helpers (Ex.emptyWorld Ex.live)
           (OMachine Ex.cpMachine) Ex.key Hin).
Defined.

